(** * Smart Agriculture Assistant: the knowledge comparator and the input router

    A shallow embedding of [projectagricututre.py]: the knowledge base
    [agri_data], the helper [normalize_name_map], the comparator
    [compare_items], the browse filter [crop_like_items] and the block run
    on every submitted question.

    Conventions of the embedding.
    - A Python [str] is a [string] holding its UTF-8 bytes.  The case and
      whitespace primitives ([str.lower], [str.strip], [str.capitalize])
      are written out for the ASCII range, where they agree with Python;
      bytes above 127 are left as they are.  Every key of [agri_data] and
      every literal the script matches on is ASCII.
    - A Python [dict] built from a literal is an association list in source
      order; the dictionary built by the comprehension in
      [normalize_name_map] is a [gmap].
    - A Python set is a [gset]; [sorted] is a merge sort under the bytewise
      lexicographic order, which on UTF-8 is the code point order Python
      uses.
    - Module globals and [st.session_state] live in a [world]; a function
      of the script is a state transformer that may raise. *)

From stdpp Require Import base option list gmap strings sorting.
From Stdlib Require Import Ascii String.

(** ** Python string primitives *)

Module Py.

Definition nl : string := String (ascii_of_nat 10) "".

Definition is_upper (c : ascii) : bool :=
  let n := nat_of_ascii c in (65 <=? n)%nat && (n <=? 90)%nat.

Definition is_lower (c : ascii) : bool :=
  let n := nat_of_ascii c in (97 <=? n)%nat && (n <=? 122)%nat.

Definition lower_char (c : ascii) : ascii :=
  if is_upper c then ascii_of_nat (nat_of_ascii c + 32) else c.

Definition upper_char (c : ascii) : ascii :=
  if is_lower c then ascii_of_nat (nat_of_ascii c - 32) else c.

(** [str.isspace] on one ASCII character: tab, line feed, vertical tab,
    form feed, carriage return, the four separators 28..31 and space.  The
    blanks Python knows beyond ASCII (U+0085, U+00A0, U+1680, U+2000 to
    U+200A, U+2028, U+2029, U+202F, U+205F, U+3000) are not covered: on a
    text holding one of them [strip] below is not [str.strip]. *)
Definition is_space (c : ascii) : bool :=
  let n := nat_of_ascii c in
  ((9 <=? n)%nat && (n <=? 13)%nat)
  || ((28 <=? n)%nat && (n <=? 31)%nat)
  || (n =? 32)%nat.

(** [s.lower()] on ASCII text: the letters A to Z are folded, every other
    byte is kept.  Python folds every cased character, so on a text with
    cased characters beyond ASCII this is not [str.lower]. *)
Fixpoint lower (s : string) : string :=
  match s with
  | EmptyString => EmptyString
  | String c s' => String (lower_char c) (lower s')
  end.

(** [s.capitalize()]: first character upper-cased, the rest lower-cased. *)
Definition capitalize (s : string) : string :=
  match s with
  | EmptyString => EmptyString
  | String c s' => String (upper_char c) (lower s')
  end.

Fixpoint lstrip (s : string) : string :=
  match s with
  | EmptyString => EmptyString
  | String c s' => if is_space c then lstrip s' else s
  end.

Fixpoint rstrip (s : string) : string :=
  match s with
  | EmptyString => EmptyString
  | String c s' =>
      match rstrip s' with
      | EmptyString => if is_space c then EmptyString else String c EmptyString
      | r => String c r
      end
  end.

(** [s.strip()] *)
Definition strip (s : string) : string := rstrip (lstrip s).

(** [s.startswith(p)] *)
Definition startswith (s p : string) : bool := String.prefix p s.

Fixpoint drop (n : nat) (s : string) : string :=
  match n, s with
  | O, _ => s
  | S _, EmptyString => EmptyString
  | S k, String _ s' => drop k s'
  end.

(** [sub in s], for a non-empty or empty [sub]. *)
Fixpoint contains (sub s : string) : bool :=
  if String.prefix sub s then true
  else match s with
       | EmptyString => false
       | String _ s' => contains sub s'
       end.

(** [s.replace(old, new)] for a non-empty [old]: occurrences are taken
    left to right and do not overlap.  [skip] counts the characters of the
    occurrence just matched that are still to be passed over. *)
Fixpoint replace_go (old new : string) (skip : nat) (s : string) : string :=
  match s with
  | EmptyString => EmptyString
  | String c s' =>
      match skip with
      | S k => replace_go old new k s'
      | O =>
          if String.prefix old s
          then new +:+ replace_go old new (String.length old - 1) s'
          else String c (replace_go old new 0 s')
      end
  end.

Definition replace (s old new : string) : string := replace_go old new 0 s.

(** [s.split(sep, 1)] for a non-empty [sep]: one element when [sep] does
    not occur, two otherwise (cut at the first occurrence). *)
Fixpoint split1 (s sep : string) : list string :=
  if String.prefix sep s then [EmptyString; drop (String.length sep) s]
  else match s with
       | EmptyString => [EmptyString]
       | String c s' =>
           match split1 s' sep with
           | hd :: tl => String c hd :: tl
           | [] => [String c EmptyString]
           end
       end.

(** The text holds ASCII characters only (no byte above 127).  On such a
    text [lower], [capitalize] and [strip] are Python's. *)
Fixpoint is_ascii (s : string) : bool :=
  match s with
  | EmptyString => true
  | String c s' => (nat_of_ascii c <? 128)%nat && is_ascii s'
  end.

(** Truth value of a string: [bool(s)]. *)
Definition truthy (s : string) : bool :=
  match s with EmptyString => false | _ => true end.

(** [sorted(xs)] on strings. *)
Definition sorted (xs : list string) : list string := merge_sort String.le xs.

End Py.

(** ** Data model *)

(** A literal [dict] with string keys, in source order. *)
Definition dict (V : Type) : Type := list (string * V).

Definition dict_keys {V} (d : dict V) : list string := d.*1.

(** [d.get(key)] *)
Fixpoint dict_get {V} (d : dict V) (key : string) : option V :=
  match d with
  | [] => None
  | (k, v) :: d' => if decide (k = key) then Some v else dict_get d' key
  end.

(** [key in d] *)
Definition dict_mem {V} (d : dict V) (key : string) : bool :=
  bool_decide (is_Some (dict_get d key)).

(** [d.get(key, dflt)] *)
Definition dict_get_default {V} (d : dict V) (key : string) (dflt : V) : V :=
  default dflt (dict_get d key).

(** The values [agri_data] may hold: the code tests [isinstance(v, dict)]
    and has a branch for anything else. *)
Inductive entry : Type :=
  | EDict (details : dict string)
  | EOther (info : string).

Inductive message : Type :=
  | SystemMessage (content : string)
  | HumanMessage (content : string)
  | AIMessage (content : string).

(** What the script puts on the page. *)
Inductive widget : Type :=
  | Markdown (body : string)
  | Warning (body : string).

Inductive exn : Type :=
  | KeyError (key : string)
  | ValueError (msg : string)
  | ChatModelError (msg : string).

Inductive result (A : Type) : Type :=
  | Returned (a : A)
  | Raised (e : exn).
Arguments Returned {A} a.
Arguments Raised {A} e.

(** The global [agri_data], the list [st.session_state.messages] and the
    page rendered so far. *)
Record world : Type := World {
  agri_data : dict entry;
  messages : list message;
  screen : list widget
}.

(** ** The monad of the script: state and exceptions *)

Definition M (A : Type) : Type := world → result A * world.

Definition ret {A} (a : A) : M A := λ w, (Returned a, w).

Definition bind {A B} (k : A → M B) (m : M A) : M B :=
  λ w, match m w with
       | (Returned a, w') => k a w'
       | (Raised e, w') => (Raised e, w')
       end.

Definition raise {A} (e : exn) : M A := λ w, (Raised e, w).

#[global] Instance M_ret : MRet M := @ret.
#[global] Instance M_bind : MBind M := @bind.

Definition read_agri_data : M (dict entry) := λ w, (Returned (agri_data w), w).

(** [st.session_state.messages.append(msg)] *)
Definition append_message (msg : message) : M unit :=
  λ w, (Returned (), World (agri_data w) (messages w ++ [msg]) (screen w)).

Definition show (x : widget) : M unit :=
  λ w, (Returned (), World (agri_data w) (messages w) (screen w ++ [x])).

(** [st.markdown(body)] and [st.warning(body)] *)
Definition st_markdown (body : string) : M unit := show (Markdown body).
Definition st_warning (body : string) : M unit := show (Warning body).

(** [d[key]] *)
Definition getitem {V} (d : dict V) (key : string) : M V :=
  match dict_get d key with
  | Some v => ret v
  | None => raise (KeyError key)
  end.

(** [a, b = xs] *)
Definition unpack2 {A} (xs : list A) : M (A * A) :=
  match xs with
  | [a; b] => ret (a, b)
  | _ => raise (ValueError "wrong number of values to unpack")
  end.

(** ** The knowledge base *)

Definition AGRI_DATA : dict entry := [
  ("Wheat", EDict [
    ("season", "Rabi (October-March)");
    ("soil", "Loamy soil with good drainage");
    ("water", "Moderate irrigation; avoid waterlogging");
    ("sowing", "Mid-Oct to Nov; seed rate 100-125 kg/ha");
    ("fertilizer", "NPK 120:60:40 kg/ha");
    ("harvesting", "March-April when grains are hard and golden");
    ("common_issues", "Rust disease, waterlogging, lodging")]);
  ("Rice", EDict [
    ("season", "Kharif (June-October) or Rabi in some regions");
    ("soil", "Clayey soil with high water retention");
    ("water", "Requires standing water in early stages; good drainage later");
    ("sowing", "Nursery raising and transplanting after 20-25 days");
    ("fertilizer", "Urea, DAP, MOP based on soil test");
    ("harvesting", "Oct-Nov when panicles turn golden, grains hard");
    ("common_issues", "Blast disease, brown planthopper, sheath blight")]);
  ("Maize", EDict [
    ("season", "Both Kharif and Rabi; prefers warm conditions");
    ("soil", "Well-drained loam or silty loam");
    ("water", "Critical irrigation at tasseling and grain filling");
    ("sowing", "June-July (Kharif), seed rate ~20 kg/ha");
    ("fertilizer", "NPK 120:60:40 kg/ha; zinc if deficient");
    ("harvesting", "Cob dries and husk turns brown; Nov-Dec");
    ("common_issues", "Fall armyworm, stem borer, nitrogen deficiency")]);
  ("Sugarcane", EDict [
    ("season", "Planting: Feb-April (spring) or Sept-Oct (autumn)");
    ("soil", "Fertile loam with good drainage and moisture retention");
    ("water", "High water requirement; regular irrigation");
    ("sowing", "Setts (2-3 bud pieces) in furrows; proper spacing");
    ("fertilizer", "High N requirement; split doses with micronutrients");
    ("harvesting", "10-12 months after planting; when brix is optimal");
    ("common_issues", "Red rot, smut, borers")]);
  ("Government Schemes", EDict [
    ("PM-KISAN", "₹6,000/year direct benefit to eligible farmers (in installments).");
    ("Soil Health Card", "Soil nutrient profile with fertilizer recommendations.");
    ("Kisan Credit Card", "Working capital loans for agriculture at subsidized rates.")]);
  ("Best Practices", EDict [
    ("Soil testing", "Test soil every 2-3 years to optimize fertilizer use.");
    ("IPM", "Integrated Pest Management—monitor, use traps, bio-control, targeted sprays.");
    ("Water management", "Use mulching/drip to reduce water loss and weeds.");
    ("Seed quality", "Use certified, high-germination seeds suited to local climate.")])
].

(** The world once the module-level assignment of [agri_data] has run. *)
Definition script_world (msgs : list message) (page : list widget) : world :=
  World AGRI_DATA msgs page.

(** ** Utilities *)

(** [{k.lower(): k for k in keys}]: the comprehension stores the keys one
    after the other, a later key replacing an earlier one under the same
    lower-cased name. *)
Definition normalize_name_map (keys : list string) : gmap string string :=
  foldl (λ m k, <[Py.lower k := k]> m) ∅ keys.

Definition NOT_FOUND : string :=
  "❌ One or both crop names were not found. Please check the names.".

Definition UNSUPPORTED : string :=
  "❌ Comparison is only supported for crop entries.".

(** [agri_data[k] if isinstance(agri_data[k], dict) else {}] *)
Definition as_dict (e : entry) : dict string :=
  match e with
  | EDict d => d
  | EOther _ => []
  end.

(** [not d] for a dict. *)
Definition dict_empty {V} (d : dict V) : bool :=
  match d with [] => true | _ => false end.

(** [sorted(set(d1.keys()).union(set(d2.keys())))] *)
Definition union_keys (d1 d2 : dict string) : list string :=
  Py.sorted (elements ((list_to_set (dict_keys d1) : gset string)
                       ∪ list_to_set (dict_keys d2))).

Definition header (k1 k2 : string) : string :=
  "### 📊 Comparison: " +:+ k1 +:+ " vs " +:+ k2 +:+ Py.nl.

Definition row (k1 k2 key v1 v2 : string) : string :=
  "- *" +:+ Py.capitalize key +:+ "*: " +:+ k1 +:+ " → " +:+ v1
  +:+ " | " +:+ k2 +:+ " → " +:+ v2 +:+ Py.nl.

Definition compare_items (name1 name2 : string) : M string :=
  data ← read_agri_data;
  let name_map := normalize_name_map (dict_keys data) in
  let k1 := name_map !! Py.lower name1 in
  let k2 := name_map !! Py.lower name2 in
  match k1, k2 with
  | Some k1, Some k2 =>
      if negb (Py.truthy k1) || negb (Py.truthy k2) then ret NOT_FOUND
      else
        e1 ← getitem data k1;
        e2 ← getitem data k2;
        let d1 := as_dict e1 in
        let d2 := as_dict e2 in
        if dict_empty d1 || dict_empty d2 then ret UNSUPPORTED
        else
          let keys := union_keys d1 d2 in
          ret (foldl (λ md key,
                        let v1 := dict_get_default d1 key "N/A" in
                        let v2 := dict_get_default d2 key "N/A" in
                        md +:+ row k1 k2 key v1 v2)
                     (header k1 k2) keys)
  | _, _ => ret NOT_FOUND
  end.

(** The test of the browse list:
    [isinstance(v, dict) and ("season" in v or "soil" in v)]. *)
Definition crop_like (v : entry) : bool :=
  match v with
  | EDict d => dict_mem d "season" || dict_mem d "soil"
  | EOther _ => false
  end.

(** [[k for k, v in agri_data.items() if ...]] *)
Definition crop_like_items (data : dict entry) : list string :=
  (filter (λ kv, crop_like kv.2 = true) data).*1.

(** ** The submit block *)

Definition USAGE : string := "⚠ Please use: Compare [Crop 1] and [Crop 2]".

(** The chain

      if " and " in temp: p1, p2 = temp.split(" and ", 1)
      elif " vs " in temp: p1, p2 = temp.split(" vs ", 1)
      else: p1, p2 = None, None *)
Definition split_pair (temp : string) : M (option string * option string) :=
  if Py.contains " and " temp then
    '(p1, p2) ← unpack2 (Py.split1 temp " and ");
    mret (Some p1, Some p2)
  else if Py.contains " vs " temp then
    '(p1, p2) ← unpack2 (Py.split1 temp " vs ");
    mret (Some p1, Some p2)
  else mret (None, None).

(** [st.markdown(compare_items(c1, c2))] *)
Definition show_comparison (c1 c2 : string) : M unit :=
  md ← compare_items c1 c2;
  st_markdown md.

(** The body of [if low.startswith("compare")]. *)
Definition compare_branch (low : string) : M unit :=
  let temp := Py.strip (Py.replace low "compare" "") in
  '(p1, p2) ← split_pair temp;
  match p1, p2 with
  | Some p1, Some p2 =>
      if Py.truthy p1 && Py.truthy p2
      then show_comparison (Py.strip p1) (Py.strip p2)
      else st_warning USAGE
  | _, _ => st_warning USAGE
  end.

Section Submit.

(** The chat model client, a collaborator of the script: it is handed the
    message list and answers with one message, or fails. *)
Variable llm : list message → result message.

(** [llm(st.session_state.messages)] *)
Definition call_llm : M message := λ w, (llm (messages w), w).

(** The body of [else]: the question goes to the chat model.  The spinner
    shown while waiting leaves no trace on the page. *)
Definition question_branch (user_input : string) : M unit :=
  append_message (HumanMessage user_input);;
  response ← call_llm;
  append_message response.

(** [if user_input: ...] *)
Definition on_submit (user_input : string) : M unit :=
  if Py.truthy user_input then
    let low := Py.strip (Py.lower user_input) in
    if Py.startswith low "compare" then compare_branch low
    else question_branch user_input
  else mret ().

End Submit.

(** The canonical key a name stands for, as [compare_items] computes it:
    [normalize_name_map(agri_data.keys()).get(name.lower())]. *)
Definition resolve (data : dict entry) (name : string) : option string :=
  normalize_name_map (dict_keys data) !! Py.lower name.

(** ** Vocabulary of the statements *)

(** One line per key: the rows laid out one after the other. *)
Definition render_rows (k1 k2 : string) (rows : list (string * string * string)) : string :=
  foldr (λ '(key, v1, v2) text, row k1 k2 key v1 v2 +:+ text) "" rows.

(** The value of each entry under each key, ["N/A"] where a key is absent. *)
Definition rows_of (d1 d2 : dict string) (keys : list string)
  : list (string * string * string) :=
  (λ key, (key, default "N/A" (dict_get d1 key), default "N/A" (dict_get d2 key)))
    <$> keys.

(** A small knowledge base whose two crops do not store the same
    attributes. *)
Definition TWO_CROPS : dict entry := [
  ("Wheat", EDict [("soil", "Loamy"); ("season", "Rabi")]);
  ("Millet", EDict [("season", "Kharif"); ("water", "Low")])
].

(** [agri_data[k]] for a key of the literal, the empty placeholder otherwise. *)
Definition agri_entry (k : string) : entry :=
  default (EOther "") (dict_get AGRI_DATA k).

(** [sep] occurs in [s] between [a] and [b], and nowhere further left. *)
Definition occurs_first (s sep a b : string) : Prop :=
  s = a +:+ sep +:+ b
  ∧ ∀ a' b', s = a' +:+ sep +:+ b' → String.length a ≤ String.length a'.

(** [sep] does not occur in [s]. *)
Definition absent (sep s : string) : Prop := ∀ a b, s ≠ a +:+ sep +:+ b.




(** ** The prompt, the session, the browse section and the history *)

(** The lines one entry adds to [formatted] in [format_agri_info]. *)
Definition format_entry (formatted item : string) (details : entry) : string :=
  let formatted := formatted +:+ (Py.nl +:+ Py.nl +:+ "*" +:+ item +:+ "*" +:+ Py.nl) in
  match details with
  | EDict d =>
      foldl (λ formatted '(key, value),
               formatted +:+ ("- " +:+ Py.capitalize key +:+ ": " +:+ value +:+ Py.nl))
            formatted d
  | EOther info => formatted +:+ ("- Info: " +:+ info +:+ Py.nl)
  end.

Definition format_agri_info (data : dict entry) : string :=
  foldl (λ formatted '(item, details), format_entry formatted item details) "" data.

(** The text of [system_prompt], around [agri_info_text]. *)
Definition PROMPT_INTRO : string :=
  "You are a helpful assistant for farmers and agriculture students. "
  +:+ "Use only the following knowledge base to answer questions about crops, seasons, soil, irrigation, fertilizer, sowing, harvesting, common issues, best practices, and government schemes:"
  +:+ Py.nl.

Definition PROMPT_RULES : string :=
  "Rules:" +:+ Py.nl
  +:+ "- If information is not present above, say 'That information is not available.'" +:+ Py.nl
  +:+ "- Be concise, practical, and use simple language." +:+ Py.nl
  +:+ "- If the user asks to compare two crops, present a clear, side-by-side comparison of available attributes." +:+ Py.nl.

Definition system_prompt (data : dict entry) : string :=
  PROMPT_INTRO +:+ format_agri_info data +:+ Py.nl +:+ PROMPT_RULES.

(** The block [if "messages" not in st.session_state: ...], on the stored
    [messages] of the session, [None] when the session has none yet. *)
Definition init_session (data : dict entry) (stored : option (list message))
  : list message :=
  match stored with
  | Some msgs => msgs
  | None => [SystemMessage (system_prompt data)]
  end.

(** [msg.content] *)
Definition content (msg : message) : string :=
  match msg with
  | SystemMessage c | HumanMessage c | AIMessage c => c
  end.

(** The line shown for one message of the history. *)
Definition history_line (msg : message) : string :=
  match msg with
  | HumanMessage c => "🧑 You:** " +:+ c
  | _ => "🤖 Bot:** " +:+ content msg
  end.

(** [for x in xs: body(x)] *)
Fixpoint for_each {A} (xs : list A) (body : A → M unit) : M unit :=
  match xs with
  | [] => mret ()
  | x :: xs' => body x;; for_each xs' body
  end.

(** [for msg in st.session_state.messages[1:]: ...] *)
Definition display_history : M unit :=
  λ w, for_each (drop 1 (messages w)) (λ msg, st_markdown (history_line msg)) w.

(** What the browse section puts on the page: a subheader, a divider, or
    one of the widgets above. *)
Inductive element : Type :=
  | Subheader (title : string)
  | Plain (x : widget)
  | Divider.

(** How the browse section can fail: [agri_data[selected]] on a missing
    key, [details.items()] on a value that is no dict. *)
Inductive browse_error : Type :=
  | MissingKey (key : string)
  | NotADict (key : string).

Definition render_item_details (title : string) (details : dict string)
  : list element :=
  Subheader title
  :: ((λ '(key, val), Plain (Markdown ("- *" +:+ Py.capitalize key +:+ ":* " +:+ val)))
        <$> details).

Definition SELECT : string := "— Select —".

(** The options of the select box. *)
Definition browse_options (data : dict entry) : list string :=
  SELECT :: Py.sorted (crop_like_items data).

(** [if selected != "— Select —": render_item_details(...); st.divider()] *)
Definition browse (data : dict entry) (selected : string)
  : browse_error + list element :=
  if decide (selected = SELECT) then inr []
  else match dict_get data selected with
       | None => inl (MissingKey selected)
       | Some (EOther _) => inl (NotADict selected)
       | Some (EDict details) =>
           inr (render_item_details selected details ++ [Divider])
       end.

(** One run of the script on a session: the stored messages are set up,
    the submit block runs on the input, the history is displayed.  A run
    that raises stops there.  [page] is what was rendered before. *)
Definition script_run (llm : list message → result message)
    (stored : option (list message)) (page : list widget) (user_input : string)
  : result unit * world :=
  (on_submit llm user_input;; display_history)
    (World AGRI_DATA (init_session AGRI_DATA stored) page).

(** The stored messages after the script has run once for each input. *)
Fixpoint session_after (llm : list message → result message)
    (stored : option (list message)) (inputs : list string)
  : option (list message) :=
  match inputs with
  | [] => stored
  | user_input :: inputs' =>
      session_after llm
        (Some (messages (script_run llm stored [] user_input).2)) inputs'
  end.

(** * Properties *)

Ltac run_monad :=
  unfold mbind, M_bind, bind, mret, M_ret, ret, raise, read_agri_data; simpl.

(** ** The primitives on sample inputs *)

Example lower_mixed : Py.lower "Compare Wheat and RICE" = "compare wheat and rice".
Proof. reflexivity. Qed.

Example strip_both : Py.strip "  wheat  " = "wheat".
Proof. reflexivity. Qed.

Example replace_all_occurrences : Py.replace "xcompareycomparez" "compare" "" = "xyz".
Proof. reflexivity. Qed.

Example split1_first : Py.split1 "a and b and c" " and " = ["a"; "b and c"].
Proof. reflexivity. Qed.

Example split1_absent : Py.split1 "wheat" " and " = ["wheat"].
Proof. reflexivity. Qed.

Example capitalize_key : Py.capitalize "common_issues" = "Common_issues".
Proof. reflexivity. Qed.

Example sorted_keys : Py.sorted ["soil"; "season"; "water"] = ["season"; "soil"; "water"].
Proof. vm_compute. reflexivity. Qed.

Example browse_list :
  crop_like_items AGRI_DATA = ["Wheat"; "Rice"; "Maize"; "Sugarcane"].
Proof. vm_compute. reflexivity. Qed.

(** ** Strings *)

Lemma append_nil (b : string) : "" +:+ b = b.
Proof. reflexivity. Qed.

Lemma append_cons (x : ascii) (a b : string) :
  String x a +:+ b = String x (a +:+ b).
Proof. reflexivity. Qed.

Lemma append_assoc (a b c : string) : (a +:+ b) +:+ c = a +:+ (b +:+ c).
Proof.
  induction a as [|x a IH]; [done |]. by rewrite !append_cons, IH.
Qed.

Lemma append_empty_r (a : string) : a +:+ "" = a.
Proof. induction a as [|x a IH]; [done |]. by rewrite append_cons, IH. Qed.

Lemma length_append (a b : string) :
  String.length (a +:+ b) = String.length a + String.length b.
Proof.
  induction a as [|x a IH]; [done |]. rewrite append_cons. simpl. by rewrite IH.
Qed.

Lemma prefix_append (p r : string) : String.prefix p (p +:+ r) = true.
Proof.
  induction p as [|x p IH]; [by destruct r |].
  rewrite append_cons. simpl. destruct (ascii_dec x x); [done | congruence].
Qed.

Lemma prefix_inv (p s : string) :
  String.prefix p s = true → ∃ r, s = p +:+ r.
Proof.
  revert s. induction p as [|x p IH]; intros s H.
  - by exists s.
  - destruct s as [|y s]; [done |]. simpl in H.
    destruct (ascii_dec x y) as [->|]; [|done].
    destruct (IH s H) as [r ->]. by exists r.
Qed.


Lemma drop_append (p r : string) : Py.drop (String.length p) (p +:+ r) = r.
Proof.
  induction p as [|x p IH]; [by destruct r |]. by rewrite append_cons.
Qed.


(** ** The name normalizer *)

Lemma normalize_name_map_snoc (keys : list string) (k : string) :
  normalize_name_map (keys ++ [k])
  = <[Py.lower k := k]> (normalize_name_map keys).
Proof. unfold normalize_name_map. by rewrite foldl_app. Qed.

(** The entry under a lower-cased name is the last key with that name. *)
Lemma normalize_name_map_lookup (keys : list string) (l : string) :
  normalize_name_map keys !! l = last (filter (λ k, Py.lower k = l) keys).
Proof.
  induction keys as [|k keys IH] using rev_ind; [done |].
  rewrite normalize_name_map_snoc, filter_app.
  destruct (decide (Py.lower k = l)) as [<-|Hne].
  - rewrite lookup_insert_eq, filter_cons_True by done.
    by rewrite filter_nil, last_snoc.
  - rewrite lookup_insert_ne by done.
    rewrite (filter_cons_False _ k []) by done.
    by rewrite filter_nil, app_nil_r.
Qed.

Lemma normalize_name_map_sound (keys : list string) (l k : string) :
  normalize_name_map keys !! l = Some k → k ∈ keys ∧ Py.lower k = l.
Proof.
  rewrite normalize_name_map_lookup. intros H.
  apply last_Some_elem_of in H. by apply list_elem_of_filter in H as [? ?].
Qed.

Lemma normalize_name_map_complete (keys : list string) (k : string) :
  k ∈ keys → is_Some (normalize_name_map keys !! Py.lower k).
Proof.
  intros Hk. rewrite normalize_name_map_lookup.
  assert (Hin : k ∈ filter (λ k', Py.lower k' = Py.lower k) keys)
    by (by apply list_elem_of_filter).
  apply last_is_Some. intros E. rewrite E in Hin. by apply elem_of_nil in Hin.
Qed.

Lemma normalize_name_map_later (pre post : list string) (k : string) :
  (∀ k', k' ∈ post → Py.lower k' ≠ Py.lower k) →
  normalize_name_map (pre ++ k :: post) !! Py.lower k = Some k.
Proof.
  intros Hpost. rewrite normalize_name_map_lookup, filter_app.
  rewrite filter_cons_True by done.
  assert (filter (λ k', Py.lower k' = Py.lower k) post = []) as ->.
  { induction post as [|k' post IH]; [done |].
    rewrite filter_cons_False by (apply Hpost; left).
    apply IH. intros k'' Hk''. apply Hpost. by right. }
  by rewrite last_snoc.
Qed.

(** C10.  For every list of keys, [normalize_name_map] holds the lower-cased
    form of every key and nothing else; each stored value is a key whose
    lower-cased form is the name it is stored under; a key is the stored
    value of its lower-cased form as soon as no later key shares that form,
    so of two keys with one lower-cased form the later one is kept; and the
    lookup of any case variant of a key succeeds. *)
Theorem normalize_name_map_spec (keys : list string) :
  (∀ k, k ∈ keys → is_Some (normalize_name_map keys !! Py.lower k))
  ∧ (∀ l k, normalize_name_map keys !! l = Some k → k ∈ keys ∧ Py.lower k = l)
  ∧ (∀ pre k post, keys = pre ++ k :: post →
       (∀ k', k' ∈ post → Py.lower k' ≠ Py.lower k) →
       normalize_name_map keys !! Py.lower k = Some k)
  ∧ (∀ k1 k2 pre mid post, keys = pre ++ k1 :: mid ++ k2 :: post →
       Py.lower k1 = Py.lower k2 →
       (∀ k', k' ∈ post → Py.lower k' ≠ Py.lower k2) →
       normalize_name_map keys !! Py.lower k1 = Some k2)
  ∧ (∀ s k, k ∈ keys → Py.lower s = Py.lower k →
       is_Some (normalize_name_map keys !! Py.lower s)).
Proof.
  split_and!.
  - apply normalize_name_map_complete.
  - apply normalize_name_map_sound.
  - intros pre k post -> Hpost. by apply normalize_name_map_later.
  - intros k1 k2 pre mid post -> Heq Hpost. rewrite Heq.
    replace (pre ++ k1 :: mid ++ k2 :: post)
      with ((pre ++ k1 :: mid) ++ k2 :: post) by (by rewrite <-app_assoc).
    by apply normalize_name_map_later.
  - intros s k Hk ->. by apply normalize_name_map_complete.
Qed.

Lemma normalize_name_map_spec_witness :
  normalize_name_map ["Wheat"; "Rice"; "WHEAT"] !! Py.lower "Wheat" = Some "WHEAT"
  ∧ is_Some (normalize_name_map ["Wheat"; "Rice"; "WHEAT"] !! Py.lower "rIcE").
Proof.
  destruct (normalize_name_map_spec ["Wheat"; "Rice"; "WHEAT"])
    as (_ & _ & _ & Hlater & Hvariant).
  split.
  - apply (Hlater "Wheat" "WHEAT" [] ["Rice"] []); [reflexivity | reflexivity |].
    intros k' Hk'. inversion Hk'.
  - apply (Hvariant "rIcE" "Rice"); [| reflexivity].
    apply list_elem_of_In. simpl. auto.
Defined.

(** ** Dictionaries *)

Lemma dict_get_Some_keys {V} (d : dict V) (key : string) (v : V) :
  dict_get d key = Some v → key ∈ dict_keys d.
Proof.
  induction d as [|[k x] d IH]; simpl; [done |].
  destruct (decide (k = key)) as [->|]; intros H.
  - left.
  - right. by apply IH.
Qed.

Lemma dict_get_is_Some {V} (d : dict V) (key : string) :
  key ∈ dict_keys d → is_Some (dict_get d key).
Proof.
  induction d as [|[k x] d IH]; simpl; intros H.
  - by apply elem_of_nil in H.
  - destruct (decide (k = key)) as [->|Hne]; [by eexists |].
    apply elem_of_cons in H as [->|H]; [done | by apply IH].
Qed.

Lemma dict_get_None {V} (d : dict V) (key : string) :
  dict_get d key = None ↔ key ∉ dict_keys d.
Proof.
  split.
  - intros H Hin. apply dict_get_is_Some in Hin as [v Hv]. congruence.
  - intros H. destruct (dict_get d key) as [v|] eqn:E; [|done].
    by apply dict_get_Some_keys in E.
Qed.

Lemma dict_mem_nonempty {V} (d : dict V) (key : string) :
  dict_mem d key = true → dict_empty d = false.
Proof. by destruct d. Qed.

Lemma crop_like_nonempty (e : entry) :
  crop_like e = true → dict_empty (as_dict e) = false.
Proof.
  destruct e as [d|]; simpl; [|done].
  intros [H|H]%orb_true_iff; by apply dict_mem_nonempty in H.
Qed.

(** ** The sorted union of the attribute keys *)

Lemma union_keys_elem_of (d1 d2 : dict string) (key : string) :
  key ∈ union_keys d1 d2 ↔ key ∈ dict_keys d1 ∨ key ∈ dict_keys d2.
Proof.
  unfold union_keys, Py.sorted. rewrite merge_sort_Permutation.
  rewrite elem_of_elements, elem_of_union, !elem_of_list_to_set. done.
Qed.

Lemma union_keys_sorted (d1 d2 : dict string) :
  StronglySorted String.le (union_keys d1 d2).
Proof. apply (StronglySorted_merge_sort _). Qed.

Lemma union_keys_NoDup (d1 d2 : dict string) : NoDup (union_keys d1 d2).
Proof.
  unfold union_keys, Py.sorted. rewrite merge_sort_Permutation.
  apply NoDup_elements.
Qed.

(** ** The text of a comparison *)

Lemma foldl_rows (k1 k2 : string) (d1 d2 : dict string) (keys : list string) (md : string) :
  foldl (λ md key,
           let v1 := dict_get_default d1 key "N/A" in
           let v2 := dict_get_default d2 key "N/A" in
           md +:+ row k1 k2 key v1 v2) md keys
  = md +:+ render_rows k1 k2 (rows_of d1 d2 keys).
Proof.
  revert md. induction keys as [|key keys IH]; intros md; simpl.
  - by rewrite append_empty_r.
  - by rewrite IH, append_assoc.
Qed.

(** ** The comparator *)

Lemma getitem_Some {V} (d : dict V) (key : string) (v : V) (w : world) :
  dict_get d key = Some v → getitem d key w = (Returned v, w).
Proof. unfold getitem. by intros ->. Qed.

Lemma compare_items_not_found (w : world) (name1 name2 : string) :
  resolve (agri_data w) name1 = None ∨ resolve (agri_data w) name2 = None →
  compare_items name1 name2 w = (Returned NOT_FOUND, w).
Proof.
  unfold resolve, compare_items. run_monad.
  intros [-> | ->]; [done |].
  by destruct (normalize_name_map _ !! Py.lower name1).
Qed.

Lemma compare_items_falsy_key (w : world) (name1 name2 k1 k2 : string) :
  resolve (agri_data w) name1 = Some k1 →
  resolve (agri_data w) name2 = Some k2 →
  Py.truthy k1 = false ∨ Py.truthy k2 = false →
  compare_items name1 name2 w = (Returned NOT_FOUND, w).
Proof.
  unfold resolve, compare_items. run_monad.
  intros -> -> [-> | ->]; [done |]. by rewrite orb_true_r.
Qed.

Lemma compare_items_resolved (w : world) (name1 name2 k1 k2 : string) (e1 e2 : entry) :
  resolve (agri_data w) name1 = Some k1 →
  resolve (agri_data w) name2 = Some k2 →
  Py.truthy k1 = true → Py.truthy k2 = true →
  dict_get (agri_data w) k1 = Some e1 →
  dict_get (agri_data w) k2 = Some e2 →
  compare_items name1 name2 w
  = (Returned (if dict_empty (as_dict e1) || dict_empty (as_dict e2)
               then UNSUPPORTED
               else header k1 k2
                    +:+ render_rows k1 k2
                          (rows_of (as_dict e1) (as_dict e2)
                                   (union_keys (as_dict e1) (as_dict e2)))),
     w).
Proof.
  unfold resolve, compare_items. run_monad.
  intros -> -> -> -> H1 H2. simpl.
  rewrite (getitem_Some _ _ _ _ H1), (getitem_Some _ _ _ _ H2).
  destruct (dict_empty (as_dict e1) || dict_empty (as_dict e2)); [done |].
  by rewrite foldl_rows.
Qed.

(** The comparator never raises and leaves the world as it found it. *)
Lemma compare_items_returns (w : world) (name1 name2 : string) :
  ∃ text, compare_items name1 name2 w = (Returned text, w).
Proof.
  destruct (resolve (agri_data w) name1) as [k1|] eqn:E1;
    [| eexists; apply compare_items_not_found; by left].
  destruct (resolve (agri_data w) name2) as [k2|] eqn:E2;
    [| eexists; apply compare_items_not_found; by right].
  destruct (Py.truthy k1) eqn:T1;
    [| eexists; eapply compare_items_falsy_key; eauto].
  destruct (Py.truthy k2) eqn:T2;
    [| eexists; eapply compare_items_falsy_key; eauto].
  destruct (normalize_name_map_sound _ _ _ E1) as [[e1 H1]%dict_get_is_Some _].
  destruct (normalize_name_map_sound _ _ _ E2) as [[e2 H2]%dict_get_is_Some _].
  eexists. by eapply compare_items_resolved.
Qed.

(** ** The knowledge base of the script *)

Lemma agri_keys :
  dict_keys AGRI_DATA
  = ["Wheat"; "Rice"; "Maize"; "Sugarcane"; "Government Schemes"; "Best Practices"].
Proof. reflexivity. Qed.

Lemma agri_key_cases (P : string → Prop) :
  P "Wheat" → P "Rice" → P "Maize" → P "Sugarcane" →
  P "Government Schemes" → P "Best Practices" →
  ∀ k, k ∈ dict_keys AGRI_DATA → P k.
Proof.
  intros ? ? ? ? ? ? k Hk. rewrite agri_keys in Hk.
  repeat (apply elem_of_cons in Hk as [->|Hk]; [assumption |]).
  by apply elem_of_nil in Hk.
Qed.

Lemma agri_key_truthy (k : string) : k ∈ dict_keys AGRI_DATA → Py.truthy k = true.
Proof. revert k. by apply agri_key_cases. Qed.

(** No two keys of the knowledge base share a lower-cased form: every key
    is the canonical key of its own lower-cased name. *)
Lemma agri_key_resolves (k : string) :
  k ∈ dict_keys AGRI_DATA → normalize_name_map (dict_keys AGRI_DATA) !! Py.lower k = Some k.
Proof. revert k. apply agri_key_cases; by vm_compute. Qed.

(** ** Claims about the comparator *)

(** C1.  Whatever the knowledge base holds: when both names resolve to
    keys (non-empty, as the test [if not k1 or not k2] asks) whose entries
    pass the crop test (a dict holding [season] or [soil]),
    [compare_items] returns the title line followed by one row per
    attribute key, where the keys are exactly the keys of either entry, each
    once, in lexicographic order, and each row holds the value of the key in
    either entry, with ["N/A"] where the entry lacks the key. *)
Theorem compare_items_sorted_union
    (w : world) (name1 name2 k1 k2 : string) (e1 e2 : entry) :
  resolve (agri_data w) name1 = Some k1 →
  resolve (agri_data w) name2 = Some k2 →
  k1 ≠ "" →
  k2 ≠ "" →
  dict_get (agri_data w) k1 = Some e1 →
  dict_get (agri_data w) k2 = Some e2 →
  crop_like e1 = true →
  crop_like e2 = true →
  ∃ keys : list string,
    StronglySorted String.le keys
    ∧ NoDup keys
    ∧ (∀ key, key ∈ keys ↔ key ∈ dict_keys (as_dict e1) ∨ key ∈ dict_keys (as_dict e2))
    ∧ compare_items name1 name2 w
      = (Returned
           (header k1 k2
            +:+ render_rows k1 k2
                  ((λ key, (key,
                            default "N/A" (dict_get (as_dict e1) key),
                            default "N/A" (dict_get (as_dict e2) key)))
                     <$> keys)),
         w).
Proof.
  intros R1 R2 T1 T2 G1 G2 C1 C2.
  exists (union_keys (as_dict e1) (as_dict e2)).
  split_and!.
  - apply union_keys_sorted.
  - apply union_keys_NoDup.
  - apply union_keys_elem_of.
  - rewrite (compare_items_resolved w name1 name2 k1 k2 e1 e2 R1 R2); try done.
    + by rewrite (crop_like_nonempty _ C1), (crop_like_nonempty _ C2).
    + by destruct k1.
    + by destruct k2.
Qed.

(** On a knowledge base whose two crops differ in their attributes: the
    rows are [season], [soil], [water], with ["N/A"] for the water of the
    one and the soil of the other. *)
Lemma compare_items_sorted_union_witness :
  ∃ keys : list string,
    StronglySorted String.le keys
    ∧ NoDup keys
    ∧ (∀ key, key ∈ keys ↔
         key ∈ dict_keys (as_dict (EDict [("soil", "Loamy"); ("season", "Rabi")]))
         ∨ key ∈ dict_keys (as_dict (EDict [("season", "Kharif"); ("water", "Low")])))
    ∧ compare_items "wheat" "MILLET" (World TWO_CROPS [] [])
      = (Returned
           (header "Wheat" "Millet"
            +:+ render_rows "Wheat" "Millet"
                  ((λ key, (key,
                            default "N/A"
                              (dict_get (as_dict (EDict [("soil", "Loamy"); ("season", "Rabi")])) key),
                            default "N/A"
                              (dict_get (as_dict (EDict [("season", "Kharif"); ("water", "Low")])) key)))
                     <$> keys)),
         World TWO_CROPS [] []).
Proof.
  apply (compare_items_sorted_union (World TWO_CROPS [] [])
           "wheat" "MILLET" "Wheat" "Millet"
           (EDict [("soil", "Loamy"); ("season", "Rabi")])
           (EDict [("season", "Kharif"); ("water", "Low")])).
  - vm_compute. reflexivity.
  - vm_compute. reflexivity.
  - discriminate.
  - discriminate.
  - reflexivity.
  - reflexivity.
  - reflexivity.
  - reflexivity.
Defined.

(** The text of that comparison, row by row. *)
Example compare_two_crops_text :
  compare_items "wheat" "MILLET" (World TWO_CROPS [] [])
  = (Returned
       (header "Wheat" "Millet"
        +:+ row "Wheat" "Millet" "season" "Rabi" "Kharif"
        +:+ row "Wheat" "Millet" "soil" "Loamy" "N/A"
        +:+ row "Wheat" "Millet" "water" "N/A" "Low"),
     World TWO_CROPS [] []).
Proof. vm_compute. reflexivity. Qed.

(** C4.  Name lookup is case-insensitive: a name whose lower-cased form is
    that of a stored key resolves to that key, and the comparator called on
    case variants of two stored keys returns what it returns on the keys as
    stored. *)
Theorem compare_items_case_insensitive
    (msgs : list message) (page : list widget) (k1 k2 name1 name2 : string) :
  k1 ∈ dict_keys AGRI_DATA →
  k2 ∈ dict_keys AGRI_DATA →
  Py.lower name1 = Py.lower k1 →
  Py.lower name2 = Py.lower k2 →
  resolve AGRI_DATA name1 = Some k1
  ∧ resolve AGRI_DATA name2 = Some k2
  ∧ compare_items name1 name2 (script_world msgs page)
    = compare_items k1 k2 (script_world msgs page).
Proof.
  intros H1 H2 L1 L2. unfold resolve. rewrite L1, L2.
  split_and!; [by apply agri_key_resolves | by apply agri_key_resolves |].
  unfold compare_items. run_monad. by rewrite L1, L2.
Qed.

Lemma compare_items_case_insensitive_witness :
  resolve AGRI_DATA "wheat" = Some "Wheat"
  ∧ resolve AGRI_DATA "RICE" = Some "Rice"
  ∧ compare_items "wheat" "RICE" (script_world [] [])
    = compare_items "Wheat" "Rice" (script_world [] []).
Proof.
  apply (compare_items_case_insensitive [] [] "Wheat" "Rice" "wheat" "RICE").
  - apply list_elem_of_In. simpl. auto.
  - apply list_elem_of_In. simpl. auto.
  - reflexivity.
  - reflexivity.
Defined.

(** C5.  The comparator always returns a string and never raises; when one
    of the names does not resolve to a key, that string is the not-found
    message, and when both resolve but one entry is empty or not a dict, it
    is the crop-entries-only message. *)
Theorem compare_items_errors_are_text (w : world) (name1 name2 : string) :
  (∃ text, compare_items name1 name2 w = (Returned text, w))
  ∧ (resolve (agri_data w) name1 = None ∨ resolve (agri_data w) name2 = None →
     compare_items name1 name2 w = (Returned NOT_FOUND, w))
  ∧ (∀ k1 k2 e1 e2,
       resolve (agri_data w) name1 = Some k1 →
       resolve (agri_data w) name2 = Some k2 →
       Py.truthy k1 = true → Py.truthy k2 = true →
       dict_get (agri_data w) k1 = Some e1 →
       dict_get (agri_data w) k2 = Some e2 →
       (dict_empty (as_dict e1) || dict_empty (as_dict e2)) = true →
       compare_items name1 name2 w = (Returned UNSUPPORTED, w)).
Proof.
  split_and!.
  - apply compare_items_returns.
  - apply compare_items_not_found.
  - intros k1 k2 e1 e2 R1 R2 T1 T2 G1 G2 E.
    rewrite (compare_items_resolved w name1 name2 k1 k2 e1 e2) by done.
    by rewrite E.
Qed.

Lemma compare_items_errors_are_text_witness :
  compare_items "Wheat" "Quinoa" (script_world [] [])
  = (Returned NOT_FOUND, script_world [] []).
Proof.
  destruct (compare_items_errors_are_text (script_world [] []) "Wheat" "Quinoa")
    as (_ & Hmissing & _).
  apply Hmissing. right. vm_compute. reflexivity.
Defined.

(** C6, as the script behaves.  [PM-KISAN] is a label inside the entry
    [Government Schemes], not a key of the knowledge base: comparing
    [Wheat] with it returns the not-found message. *)
Theorem compare_wheat_pm_kisan_not_found (msgs : list message) (page : list widget) :
  resolve AGRI_DATA "PM-KISAN" = None
  ∧ compare_items "Wheat" "PM-KISAN" (script_world msgs page)
    = (Returned NOT_FOUND, script_world msgs page).
Proof.
  assert (H : resolve AGRI_DATA "PM-KISAN" = None) by (vm_compute; reflexivity).
  split; [done |]. apply compare_items_not_found. by right.
Qed.

(** C6, as stated, fails: the result is not the crop-entries-only message. *)
Lemma compare_wheat_pm_kisan_not_unsupported :
  compare_items "Wheat" "PM-KISAN" (script_world [] [])
  ≠ (Returned UNSUPPORTED, script_world [] []).
Proof. vm_compute. intros H. discriminate H. Qed.

(** C9.  The comparator reads the knowledge base and nothing else, and
    writes nothing: it hands back the world it was given, two runs in a row
    return the same text, and two worlds holding the same knowledge base
    give the same text whatever their message lists and pages are. *)
Theorem compare_items_pure (w w' : world) (name1 name2 : string) :
  agri_data w = agri_data w' →
  (compare_items name1 name2 w).2 = w
  ∧ compare_items name1 name2 (compare_items name1 name2 w).2
    = compare_items name1 name2 w
  ∧ (compare_items name1 name2 w').1 = (compare_items name1 name2 w).1.
Proof.
  intros Hkb.
  destruct (compare_items_returns w name1 name2) as [text Hw].
  split_and!.
  - by rewrite Hw.
  - by rewrite Hw.
  - unfold compare_items. run_monad. rewrite <-Hkb.
    clear. destruct w as [data ms pg], w' as [data' ms' pg']. simpl.
    destruct (normalize_name_map (dict_keys data) !! Py.lower name1); [|done].
    destruct (normalize_name_map (dict_keys data) !! Py.lower name2); [|done].
    destruct (negb _ || negb _); [done |].
    unfold getitem.
    destruct (dict_get data s); [|done]. run_monad.
    destruct (dict_get data s0); [|done]. run_monad.
    by destruct (dict_empty _ || dict_empty _).
Qed.

Lemma compare_items_pure_witness :
  (compare_items "Wheat" "Rice" (script_world [] [])).2 = script_world [] []
  ∧ compare_items "Wheat" "Rice"
      (compare_items "Wheat" "Rice" (script_world [] [])).2
    = compare_items "Wheat" "Rice" (script_world [] [])
  ∧ (compare_items "Wheat" "Rice"
       (script_world [HumanMessage "hello"] [Warning "w"])).1
    = (compare_items "Wheat" "Rice" (script_world [] [])).1.
Proof.
  apply (compare_items_pure (script_world [] [])
           (script_world [HumanMessage "hello"] [Warning "w"]) "Wheat" "Rice").
  reflexivity.
Defined.

(** C2, at the failing input.  [Government Schemes] resolves to a dict that
    holds neither [season] nor [soil], yet the guard of the comparator,
    which only turns away an empty dict or a value that is no dict, lets it
    through: the result is a comparison table, not the crop-entries-only
    message. *)
Theorem compare_items_accepts_flat_entry (msgs : list message) (page : list widget) :
  resolve AGRI_DATA "Government Schemes" = Some "Government Schemes"
  ∧ crop_like (agri_entry "Government Schemes") = false
  ∧ ¬ ("Government Schemes" ∈ crop_like_items AGRI_DATA)
  ∧ compare_items "Wheat" "Government Schemes" (script_world msgs page)
    = (Returned
         (header "Wheat" "Government Schemes"
          +:+ render_rows "Wheat" "Government Schemes"
                (rows_of (as_dict (agri_entry "Wheat"))
                         (as_dict (agri_entry "Government Schemes"))
                         ["Kisan Credit Card"; "PM-KISAN"; "Soil Health Card";
                          "common_issues"; "fertilizer"; "harvesting";
                          "season"; "soil"; "sowing"; "water"])),
       script_world msgs page)
  ∧ (compare_items "Wheat" "Government Schemes" (script_world msgs page)).1
    ≠ Returned UNSUPPORTED.
Proof.
  assert (Hrun : compare_items "Wheat" "Government Schemes" (script_world msgs page)
                 = (Returned
                      (header "Wheat" "Government Schemes"
                       +:+ render_rows "Wheat" "Government Schemes"
                             (rows_of (as_dict (agri_entry "Wheat"))
                                      (as_dict (agri_entry "Government Schemes"))
                                      ["Kisan Credit Card"; "PM-KISAN"; "Soil Health Card";
                                       "common_issues"; "fertilizer"; "harvesting";
                                       "season"; "soil"; "sowing"; "water"])),
                    script_world msgs page)).
  { rewrite (compare_items_resolved (script_world msgs page)
               "Wheat" "Government Schemes" "Wheat" "Government Schemes"
               (agri_entry "Wheat") (agri_entry "Government Schemes"));
      vm_compute; reflexivity. }
  split_and!.
  - vm_compute. reflexivity.
  - reflexivity.
  - vm_compute. intros H. repeat (apply elem_of_cons in H as [H|H]; [discriminate H |]).
    by apply elem_of_nil in H.
  - exact Hrun.
  - rewrite Hrun. simpl. vm_compute. intros H. discriminate H.
Qed.

(** ** Substrings: occurrence, cutting, replacing, trimming *)

Lemma contains_unfold (sub s : string) :
  Py.contains sub s
  = if String.prefix sub s then true
    else match s with
         | EmptyString => false
         | String _ s' => Py.contains sub s'
         end.
Proof. by destruct s. Qed.

Lemma split1_unfold (s sep : string) :
  Py.split1 s sep
  = if String.prefix sep s then [EmptyString; Py.drop (String.length sep) s]
    else match s with
         | EmptyString => [EmptyString]
         | String c s' =>
             match Py.split1 s' sep with
             | hd :: tl => String c hd :: tl
             | [] => [String c EmptyString]
             end
         end.
Proof. by destruct s. Qed.

Lemma contains_split1 (sep s : string) :
  Py.contains sep s = true →
  ∃ a b, Py.split1 s sep = [a; b] ∧ occurs_first s sep a b.
Proof.
  induction s as [|c s IH]; rewrite contains_unfold, split1_unfold.
  - destruct sep as [|c sep]; [|done]. intros _. exists "", "".
    split; [done |]. split; [done |]. intros; simpl; lia.
  - destruct (String.prefix sep (String c s)) eqn:P.
    + intros _. destruct (prefix_inv _ _ P) as [r Hr]. exists "", r. split.
      * by rewrite Hr, drop_append.
      * split; [done |]. intros; simpl; lia.
    + intros [a [b [Hsplit [Heq Hmin]]]]%IH. exists (String c a), b. split.
      * by rewrite Hsplit.
      * split; [by rewrite append_cons, <-Heq |].
        intros [|c' a'] b' Ha'.
        -- rewrite append_nil in Ha'. rewrite Ha', prefix_append in P. done.
        -- rewrite append_cons in Ha'. injection Ha' as -> Ha'.
           simpl. apply le_n_S. by eapply Hmin.
Qed.

Lemma occurs_first_split1 (s sep a b : string) :
  occurs_first s sep a b →
  Py.contains sep s = true ∧ Py.split1 s sep = [a; b].
Proof.
  intros [Heq Hmin].
  assert (Hc : Py.contains sep s = true).
  { rewrite Heq. clear. induction a as [|c a IH].
    - rewrite append_nil, contains_unfold. by rewrite prefix_append.
    - rewrite append_cons, contains_unfold. rewrite IH. by destruct (String.prefix _ _). }
  split; [done |].
  destruct (contains_split1 _ _ Hc) as (a0 & b0 & Hsplit & Heq0 & Hmin0).
  rewrite Hsplit.
  assert (Hlen : String.length a0 = String.length a).
  { apply Nat.le_antisymm; [by eapply Hmin0 | by eapply Hmin]. }
  assert (Ha : a0 = a ∧ sep +:+ b0 = sep +:+ b).
  { rewrite Heq in Heq0. clear -Heq0 Hlen. revert a Heq0 Hlen.
    induction a0 as [|c a0 IH]; intros [|c' a] Heq0 Hlen; simpl in Hlen; try lia.
    - by rewrite !append_nil in Heq0.
    - rewrite !append_cons in Heq0. injection Heq0 as -> Heq0.
      destruct (IH a Heq0) as [-> ?]; [lia | done]. }
  destruct Ha as [-> Hb]. by apply (inj (String.app sep)) in Hb as ->.
Qed.

Lemma absent_contains (sep s : string) :
  absent sep s ↔ Py.contains sep s = false.
Proof.
  split.
  - intros Habs. destruct (Py.contains sep s) eqn:E; [|done].
    apply contains_split1 in E as (a & b & _ & Heq & _). by apply Habs in Heq.
  - intros E a b Heq.
    assert (Py.contains sep s = true); [|congruence].
    rewrite Heq. clear. induction a as [|c a IH].
    + rewrite append_nil, contains_unfold. by rewrite prefix_append.
    + rewrite append_cons, contains_unfold. rewrite IH.
      by destruct (String.prefix _ _).
Qed.





Lemma append_singleton_inv (a : string) (c x : ascii) :
  a +:+ String c "" = String x "" → a = "" ∧ c = x.
Proof.
  destruct a as [|y a]; [rewrite append_nil; by intros [= ->] |].
  rewrite append_cons. intros [= -> H]. by destruct a.
Qed.

Lemma rstrip_last (s a : string) (c : ascii) :
  Py.rstrip s = a +:+ String c "" → Py.is_space c = false.
Proof.
  revert a. induction s as [|x s IH]; intros a; simpl.
  - by destruct a.
  - destruct (Py.rstrip s) as [|y r] eqn:E.
    + destruct (Py.is_space x) eqn:Sx; [by destruct a |].
      intros H. symmetry in H. by apply append_singleton_inv in H as [_ ->].
    + destruct a as [|x' a]; [by rewrite append_nil |].
      rewrite append_cons. intros [= -> H]. by apply (IH a).
Qed.

Lemma lstrip_head (s r : string) (c : ascii) :
  Py.lstrip s = String c r → Py.is_space c = false.
Proof.
  induction s as [|x s IH]; simpl; [done |].
  destruct (Py.is_space x) eqn:Sx; [done |]. by intros [= <- _].
Qed.

Lemma rstrip_head (s r : string) (c : ascii) :
  Py.rstrip s = String c r → ∃ r', s = String c r'.
Proof.
  destruct s as [|x s]; simpl; [done |].
  destruct (Py.rstrip s); [destruct (Py.is_space x) |];
    intros [= <- _]; by eexists.
Qed.

Lemma strip_head (s r : string) (c : ascii) :
  Py.strip s = String c r → Py.is_space c = false.
Proof.
  unfold Py.strip. intros [r' H]%rstrip_head. by eapply lstrip_head.
Qed.

Lemma strip_last (s a : string) (c : ascii) :
  Py.strip s = a +:+ String c "" → Py.is_space c = false.
Proof. unfold Py.strip. apply rstrip_last. Qed.

(** Both sides of a separator that starts and ends with a space are
    non-empty when the string cut has been trimmed. *)
Lemma strip_cut_truthy (s sep0 a b : string) :
  Py.strip s = a +:+ (String " " sep0 +:+ String " " "") +:+ b →
  Py.truthy a = true ∧ Py.truthy b = true.
Proof.
  intros H. split.
  - destruct a as [|c a]; [|done].
    rewrite append_nil, append_cons in H. by apply strip_head in H.
  - destruct b as [|c b]; [|done].
    rewrite append_empty_r, <-append_assoc in H. by apply strip_last in H.
Qed.

(** ** The submit block *)

Lemma split_pair_and (temp a b : string) (w : world) :
  occurs_first temp " and " a b →
  split_pair temp w = (Returned (Some a, Some b), w).
Proof.
  intros [Hc Hs]%occurs_first_split1. unfold split_pair. by rewrite Hc, Hs.
Qed.

Lemma split_pair_vs (temp a b : string) (w : world) :
  absent " and " temp → occurs_first temp " vs " a b →
  split_pair temp w = (Returned (Some a, Some b), w).
Proof.
  intros Hand%absent_contains [Hc Hs]%occurs_first_split1.
  unfold split_pair. by rewrite Hand, Hc, Hs.
Qed.

Lemma split_pair_none (temp : string) (w : world) :
  absent " and " temp → absent " vs " temp →
  split_pair temp w = (Returned (None, None), w).
Proof.
  intros Hand%absent_contains Hvs%absent_contains.
  unfold split_pair. by rewrite Hand, Hvs.
Qed.

(** The unpacking of the split never fails: the split is only taken when
    the separator occurs, and then it has two parts. *)
Lemma split_pair_returns (temp : string) (w : world) :
  ∃ p, split_pair temp w = (Returned p, w).
Proof.
  unfold split_pair.
  destruct (Py.contains " and " temp) eqn:Hand.
  { apply contains_split1 in Hand as (a & b & -> & _). by eexists. }
  destruct (Py.contains " vs " temp) eqn:Hvs.
  { apply contains_split1 in Hvs as (a & b & -> & _). by eexists. }
  by eexists.
Qed.

Lemma show_comparison_effect (c1 c2 : string) (w : world) :
  ∃ text, compare_items c1 c2 w = (Returned text, w)
          ∧ show_comparison c1 c2 w
            = (Returned (),
               World (agri_data w) (messages w) (screen w ++ [Markdown text])).
Proof.
  destruct (compare_items_returns w c1 c2) as [text H]. exists text.
  split; [done |]. unfold show_comparison. run_monad. by rewrite H.
Qed.

(** The comparison path puts one widget on the page, a warning or the text
    the comparator returned, and touches nothing else. *)
Lemma compare_branch_effect (low : string) (w : world) :
  ∃ x, compare_branch low w
       = (Returned (), World (agri_data w) (messages w) (screen w ++ [x]))
       ∧ (x = Warning USAGE
          ∨ ∃ c1 c2 text, compare_items c1 c2 w = (Returned text, w)
                          ∧ x = Markdown text).
Proof.
  unfold compare_branch.
  destruct (split_pair_returns (Py.strip (Py.replace low "compare" "")) w)
    as [[p1 p2] Hp].
  run_monad. rewrite Hp.
  assert (Hwarn : ∃ x, st_warning USAGE w
            = (Returned (), World (agri_data w) (messages w) (screen w ++ [x]))
            ∧ (x = Warning USAGE
               ∨ ∃ c1 c2 text, compare_items c1 c2 w = (Returned text, w)
                               ∧ x = Markdown text)).
  { eexists. split; [reflexivity | by left]. }
  destruct p1 as [p1|]; [|done]. destruct p2 as [p2|]; [|done].
  destruct (Py.truthy p1 && Py.truthy p2); [|done].
  destruct (show_comparison_effect (Py.strip p1) (Py.strip p2) w)
    as (text & Hc & Hs).
  eexists. split; [exact Hs |]. right. by eexists _, _, _.
Qed.

Lemma on_submit_compare (llm : list message → result message)
    (user_input : string) (w : world) :
  Py.startswith (Py.strip (Py.lower user_input)) "compare" = true →
  on_submit llm user_input w = compare_branch (Py.strip (Py.lower user_input)) w.
Proof.
  intros H. unfold on_submit. rewrite H.
  destruct user_input; [done | done].
Qed.

Lemma on_submit_question (llm : list message → result message)
    (user_input : string) (w : world) :
  user_input ≠ "" →
  Py.startswith (Py.strip (Py.lower user_input)) "compare" = false →
  on_submit llm user_input w = question_branch llm user_input w.
Proof.
  intros Hne H. unfold on_submit. rewrite H. by destruct user_input.
Qed.


(** C7.  A submission that the script takes as a compare command, whether
    it ends in a comparison, in a message of the comparator or in the usage
    warning, leaves the message list as it was: the run returns normally
    and the only change to the world is one widget added to the page. *)
Theorem compare_command_keeps_history (llm : list message → result message)
    (user_input : string) (w : world) :
  Py.startswith (Py.strip (Py.lower user_input)) "compare" = true →
  messages (on_submit llm user_input w).2 = messages w
  ∧ ∃ x, on_submit llm user_input w
         = (Returned (), World (agri_data w) (messages w) (screen w ++ [x]))
         ∧ (x = Warning USAGE
            ∨ ∃ c1 c2 text, compare_items c1 c2 w = (Returned text, w)
                            ∧ x = Markdown text).
Proof.
  intros H. rewrite on_submit_compare by done.
  destruct (compare_branch_effect (Py.strip (Py.lower user_input)) w)
    as (x & Hrun & Hx).
  split; [by rewrite Hrun |]. by exists x.
Qed.

Lemma compare_command_keeps_history_witness :
  messages (on_submit (λ _, Raised (ChatModelError "offline")) "compare wheat"
              (script_world [SystemMessage "rules"] [])).2
  = [SystemMessage "rules"].
Proof.
  apply (compare_command_keeps_history
           (λ _, Raised (ChatModelError "offline")) "compare wheat"
           (script_world [SystemMessage "rules"] [])).
  reflexivity.
Defined.



(** When the chat model fails, the failure leaves the script with the user
    message already appended and no reply. *)
Lemma question_model_failure (llm : list message → result message)
    (user_input : string) (w : world) (e : exn) :
  user_input ≠ "" →
  Py.startswith (Py.strip (Py.lower user_input)) "compare" = false →
  llm (messages w ++ [HumanMessage user_input]) = Raised e →
  on_submit llm user_input w
  = (Raised e,
     World (agri_data w) (messages w ++ [HumanMessage user_input]) (screen w)).
Proof.
  intros Hne Hq Hllm. rewrite on_submit_question by done.
  unfold question_branch, call_llm, append_message. run_monad.
  by rewrite Hllm.
Qed.

(** ** The router *)

Lemma occurs_first_computed (s sep a b : string) :
  Py.contains sep s = true → Py.split1 s sep = [a; b] → occurs_first s sep a b.
Proof.
  intros (a0 & b0 & Hs & Hocc)%contains_split1 Hab.
  rewrite Hs in Hab. by injection Hab as -> ->.
Qed.



(** A separator that opens the text after [compare] is not a separator for
    the script, which trims that text before it looks for one. *)
Example separator_right_after_compare (llm : list message → result message) (w : world) :
  on_submit llm "compare and rice" w = st_warning USAGE w.
Proof. reflexivity. Qed.



(** * Further properties of the script *)

(** ** Case folding and trimming commute *)

Lemma is_space_lower_char (c : ascii) :
  Py.is_space (Py.lower_char c) = Py.is_space c.
Proof. destruct c as [[] [] [] [] [] [] [] []]; reflexivity. Qed.

Lemma lower_lower (s : string) : Py.lower (Py.lower s) = Py.lower s.
Proof.
  induction s as [|c s IH]; [done |]. simpl. rewrite IH. f_equal.
  destruct c as [[] [] [] [] [] [] [] []]; reflexivity.
Qed.

Lemma lower_append (a b : string) :
  Py.lower (a +:+ b) = Py.lower a +:+ Py.lower b.
Proof.
  induction a as [|c a IH]; [done |].
  rewrite !append_cons. simpl. by rewrite IH, append_cons.
Qed.

Lemma lstrip_lower (s : string) :
  Py.lstrip (Py.lower s) = Py.lower (Py.lstrip s).
Proof.
  induction s as [|c s IH]; [done |]. simpl.
  rewrite is_space_lower_char. by destruct (Py.is_space c).
Qed.

Lemma rstrip_lower (s : string) :
  Py.rstrip (Py.lower s) = Py.lower (Py.rstrip s).
Proof.
  induction s as [|c s IH]; [done |]. simpl.
  rewrite IH, is_space_lower_char.
  destruct (Py.rstrip s); simpl; [by destruct (Py.is_space c) | done].
Qed.

Lemma strip_lower (s : string) :
  Py.strip (Py.lower s) = Py.lower (Py.strip s).
Proof. unfold Py.strip. by rewrite lstrip_lower, rstrip_lower. Qed.

(** ** What a submission does to the session *)

Lemma on_submit_appends_only_aux (llm : list message → result message)
    (user_input : string) (w : world) :
  ∃ added,
    messages (on_submit llm user_input w).2 = messages w ++ added
    ∧ (added = []
       ∨ added = [HumanMessage user_input]
       ∨ ∃ reply, added = [HumanMessage user_input; reply]).
Proof.
  destruct user_input as [|c s] eqn:E.
  { exists []. split; [by rewrite app_nil_r | by left]. }
  rewrite <-E.
  destruct (Py.startswith (Py.strip (Py.lower user_input)) "compare") eqn:P.
  - rewrite on_submit_compare by done.
    destruct (compare_branch_effect (Py.strip (Py.lower user_input)) w)
      as (x & -> & _).
    exists []. split; [by rewrite app_nil_r | by left].
  - rewrite on_submit_question by (done || by rewrite E).
    unfold question_branch, call_llm, append_message. run_monad.
    destruct (llm (messages w ++ [HumanMessage user_input])) as [reply|e]; simpl.
    + exists [HumanMessage user_input; reply].
      split; [by rewrite <-app_assoc | right; right; by eexists].
    + exists [HumanMessage user_input]. split; [done | right; by left].
Qed.

(** X1.  Whatever the input and whatever the chat model does, a run of the
    submit block keeps the messages it found, in place and in order, and
    adds at most two after them: nothing, or the user message holding the
    input as typed, alone or followed by one more message.  The knowledge
    base is left as it was. *)
Theorem on_submit_appends_only (llm : list message → result message)
    (user_input : string) (w : world) :
  agri_data (on_submit llm user_input w).2 = agri_data w
  ∧ ∃ added,
      messages (on_submit llm user_input w).2 = messages w ++ added
      ∧ (added = []
         ∨ added = [HumanMessage user_input]
         ∨ ∃ reply, added = [HumanMessage user_input; reply]).
Proof.
  destruct user_input as [|c s] eqn:E.
  { split; [done |]. exists []. split; [by rewrite app_nil_r | by left]. }
  rewrite <-E.
  destruct (Py.startswith (Py.strip (Py.lower user_input)) "compare") eqn:P.
  - rewrite on_submit_compare by done.
    destruct (compare_branch_effect (Py.strip (Py.lower user_input)) w)
      as (x & -> & _).
    split; [done |]. exists []. split; [by rewrite app_nil_r | by left].
  - rewrite on_submit_question by (done || by rewrite E).
    unfold question_branch, call_llm, append_message. run_monad.
    destruct (llm (messages w ++ [HumanMessage user_input])) as [reply|e]; simpl.
    + split; [done |]. exists [HumanMessage user_input; reply].
      split; [by rewrite <-app_assoc | right; right; by eexists].
    + split; [done |]. exists [HumanMessage user_input].
      split; [done | right; by left].
Qed.

(** X2.  A compare command is answered without the chat model: the run is
    the same whatever chat model the script is given. *)
Theorem compare_command_ignores_model (llm llm' : list message → result message)
    (user_input : string) (w : world) :
  Py.startswith (Py.strip (Py.lower user_input)) "compare" = true →
  on_submit llm user_input w = on_submit llm' user_input w.
Proof. intros H. by rewrite !on_submit_compare. Qed.

Lemma compare_command_ignores_model_witness :
  on_submit (λ _, Raised (ChatModelError "offline")) "Compare Wheat and Rice"
    (script_world [] [])
  = on_submit (λ _, Returned (AIMessage "hello")) "Compare Wheat and Rice"
      (script_world [] []).
Proof.
  apply (compare_command_ignores_model
           (λ _, Raised (ChatModelError "offline"))
           (λ _, Returned (AIMessage "hello"))
           "Compare Wheat and Rice" (script_world [] [])).
  reflexivity.
Defined.

(** X3.  An input made of blanks only is not dropped: it is non-empty for
    the test [if user_input], is no compare command, and so goes to the chat
    model as a question, blanks included. *)
Theorem blank_input_is_asked (llm : list message → result message)
    (user_input : string) (w : world) :
  user_input ≠ "" →
  Py.strip user_input = "" →
  ∃ after,
    messages (on_submit llm user_input w).2
    = messages w ++ HumanMessage user_input :: after
    ∧ (∀ reply, llm (messages w ++ [HumanMessage user_input]) = Returned reply →
                after = [reply]).
Proof.
  intros Hne Hblank.
  assert (Hq : Py.startswith (Py.strip (Py.lower user_input)) "compare" = false)
    by (by rewrite strip_lower, Hblank).
  rewrite on_submit_question by done.
  unfold question_branch, call_llm, append_message. run_monad.
  destruct (llm (messages w ++ [HumanMessage user_input])) as [reply|e]; simpl.
  - exists [reply]. split; [by rewrite <-app_assoc |]. by intros ? [= ->].
  - exists []. split; [done |]. by intros.
Qed.

Lemma blank_input_is_asked_witness :
  ∃ after,
    messages (on_submit (λ _, Returned (AIMessage "Please ask a question."))
                "   " (script_world [SystemMessage "rules"] [])).2
    = messages (script_world [SystemMessage "rules"] [])
      ++ HumanMessage "   " :: after
    ∧ (∀ reply,
         (λ _, Returned (AIMessage "Please ask a question."))
           (messages (script_world [SystemMessage "rules"] [])
            ++ [HumanMessage "   "]) = Returned reply →
         after = [reply]).
Proof.
  apply (blank_input_is_asked
           (λ _, Returned (AIMessage "Please ask a question."))
           "   " (script_world [SystemMessage "rules"] [])).
  - discriminate.
  - reflexivity.
Defined.

(** X4.  For a line of ASCII text (where the trimming of the embedding is
    Python's): the usage warning is what a compare command shows exactly
    when the line, once lower-cased, trimmed, freed of every [compare] and
    trimmed again, holds neither [" and "] nor [" vs "].  As soon as a
    separator is there, both sides of the first cut are non-empty and the
    comparator is called on them, trimmed: the test [if p1 and p2] never
    turns a cut away. *)
Theorem compare_branch_dispatch (low : string) (w : world) :
  Py.is_ascii low = true →
  (∀ a b,
     occurs_first (Py.strip (Py.replace low "compare" "")) " and " a b →
     compare_branch low w = show_comparison (Py.strip a) (Py.strip b) w)
  ∧ (∀ a b,
       absent " and " (Py.strip (Py.replace low "compare" "")) →
       occurs_first (Py.strip (Py.replace low "compare" "")) " vs " a b →
       compare_branch low w = show_comparison (Py.strip a) (Py.strip b) w)
  ∧ (compare_branch low w = st_warning USAGE w
     ↔ absent " and " (Py.strip (Py.replace low "compare" ""))
       ∧ absent " vs " (Py.strip (Py.replace low "compare" ""))).
Proof.
  intros _. set (temp := Py.strip (Py.replace low "compare" "")).
  assert (Hand : ∀ a b, occurs_first temp " and " a b →
            compare_branch low w = show_comparison (Py.strip a) (Py.strip b) w).
  { intros a b Hocc. unfold compare_branch. fold temp. run_monad.
    rewrite (split_pair_and _ a b) by done. destruct Hocc as [Heq _].
    apply (strip_cut_truthy _ "and" a b) in Heq as [-> ->]. done. }
  assert (Hvs : ∀ a b, absent " and " temp → occurs_first temp " vs " a b →
            compare_branch low w = show_comparison (Py.strip a) (Py.strip b) w).
  { intros a b Habs Hocc. unfold compare_branch. fold temp. run_monad.
    rewrite (split_pair_vs _ a b) by done. destruct Hocc as [Heq _].
    apply (strip_cut_truthy _ "vs" a b) in Heq as [-> ->]. done. }
  assert (Hshown : ∀ c1 c2, show_comparison c1 c2 w ≠ st_warning USAGE w).
  { intros c1 c2 H.
    destruct (show_comparison_effect c1 c2 w) as (text & _ & Hs).
    rewrite Hs in H. injection H as H. by apply app_inj_tail in H as [_ ?]. }
  split_and!; [done | done |]. split.
  - intros Hwarn.
    destruct (Py.contains " and " temp) eqn:Cand.
    { apply contains_split1 in Cand as (a & b & _ & Hocc).
      rewrite (Hand a b Hocc) in Hwarn. by apply Hshown in Hwarn. }
    apply absent_contains in Cand. split; [done |].
    destruct (Py.contains " vs " temp) eqn:Cvs; [| by apply absent_contains].
    apply contains_split1 in Cvs as (a & b & _ & Hocc).
    rewrite (Hvs a b Cand Hocc) in Hwarn. by apply Hshown in Hwarn.
  - intros [Ha Hv]. unfold compare_branch. fold temp. run_monad.
    by rewrite split_pair_none.
Qed.

Lemma compare_branch_dispatch_witness :
  compare_branch "compare wheatcompare and rice" (script_world [] [])
  = show_comparison "wheat" "rice" (script_world [] []).
Proof.
  destruct (compare_branch_dispatch "compare wheatcompare and rice"
              (script_world [] [])) as (Hand & _ & _); [reflexivity |].
  apply (Hand "wheat" "rice").
  apply occurs_first_computed; reflexivity.
Defined.

(** ** The router and the comparator together *)

(** X5.  For any two keys of the knowledge base, typed in any letter case,
    the line [Compare <name1> and <name2>] puts on the page the comparison
    of the two entries under their stored names: the title line of the two
    keys followed by the rows.  No pair of keys ends in a not-found or
    crop-entries-only message. *)
Theorem compare_line_shows_table (llm : list message → result message)
    (msgs : list message) (page : list widget) (k1 k2 name1 name2 : string) :
  k1 ∈ dict_keys AGRI_DATA →
  k2 ∈ dict_keys AGRI_DATA →
  Py.lower name1 = Py.lower k1 →
  Py.lower name2 = Py.lower k2 →
  on_submit llm ("Compare " +:+ name1 +:+ " and " +:+ name2) (script_world msgs page)
  = (Returned (),
     World AGRI_DATA msgs
       (page ++ [Markdown
                   (header k1 k2
                    +:+ render_rows k1 k2
                          (rows_of (as_dict (agri_entry k1)) (as_dict (agri_entry k2))
                             (union_keys (as_dict (agri_entry k1))
                                         (as_dict (agri_entry k2)))))])).
Proof.
  intros H1 H2 L1 L2.
  assert (Hshow : on_submit llm ("Compare " +:+ name1 +:+ " and " +:+ name2)
                    (script_world msgs page)
                  = show_comparison (Py.lower k1) (Py.lower k2) (script_world msgs page)).
  { unfold on_submit. rewrite !lower_append, L1, L2.
    revert k2 H2 name2 L2. revert k1 H1 name1 L1.
    apply (agri_key_cases (λ k1, ∀ name1, _ → ∀ k2, _ → ∀ name2, _ → _));
      intros name1 _;
      apply (agri_key_cases (λ k2, ∀ name2, _ → _));
      intros name2 _; reflexivity. }
  rewrite Hshow. unfold show_comparison. run_monad.
  rewrite (compare_items_resolved (script_world msgs page)
             (Py.lower k1) (Py.lower k2) k1 k2 (agri_entry k1) (agri_entry k2)).
  - assert (E : ∀ k, k ∈ dict_keys AGRI_DATA →
                     dict_empty (as_dict (agri_entry k)) = false)
      by (by apply agri_key_cases).
    by rewrite (E k1 H1), (E k2 H2).
  - unfold resolve. rewrite lower_lower. by apply agri_key_resolves.
  - unfold resolve. rewrite lower_lower. by apply agri_key_resolves.
  - by apply agri_key_truthy.
  - by apply agri_key_truthy.
  - simpl agri_data. unfold agri_entry.
    destruct (dict_get_is_Some AGRI_DATA k1 H1) as [e ->]. done.
  - simpl agri_data. unfold agri_entry.
    destruct (dict_get_is_Some AGRI_DATA k2 H2) as [e ->]. done.
Qed.

Lemma compare_line_shows_table_witness :
  on_submit (λ _, Raised (ChatModelError "offline"))
    ("Compare " +:+ "MAIZE" +:+ " and " +:+ "sugarcane") (script_world [] [])
  = (Returned (),
     World AGRI_DATA []
       ([] ++ [Markdown
                 (header "Maize" "Sugarcane"
                  +:+ render_rows "Maize" "Sugarcane"
                        (rows_of (as_dict (agri_entry "Maize"))
                                 (as_dict (agri_entry "Sugarcane"))
                           (union_keys (as_dict (agri_entry "Maize"))
                                       (as_dict (agri_entry "Sugarcane")))))])).
Proof.
  apply (compare_line_shows_table (λ _, Raised (ChatModelError "offline"))
           [] [] "Maize" "Sugarcane" "MAIZE" "sugarcane").
  - apply list_elem_of_In. simpl. auto.
  - apply list_elem_of_In. simpl. auto 10.
  - reflexivity.
  - reflexivity.
Defined.

(** ** The rows of a comparison *)

Lemma union_keys_comm (d1 d2 : dict string) : union_keys d1 d2 = union_keys d2 d1.
Proof. unfold union_keys. by rewrite (comm_L (∪)). Qed.

Lemma rows_of_swap (d1 d2 : dict string) (keys : list string) :
  rows_of d2 d1 keys = (λ '(key, v1, v2), (key, v2, v1)) <$> rows_of d1 d2 keys.
Proof. unfold rows_of. rewrite <-list_fmap_compose. by apply list_fmap_ext. Qed.

Lemma dict_keys_is_Some {V} (d : dict V) (key : string) :
  key ∈ dict_keys d ↔ is_Some (dict_get d key).
Proof.
  split; [apply dict_get_is_Some |]. intros [v Hv]. by eapply dict_get_Some_keys.
Qed.

Lemma union_keys_nonempty (d1 d2 : dict string) : d1 ≠ [] → union_keys d1 d2 ≠ [].
Proof.
  destruct d1 as [|[key v] d1]; [done |]. intros _ Hnil.
  assert (Hin : key ∈ union_keys ((key, v) :: d1) d2).
  { apply union_keys_elem_of. left. simpl. apply elem_of_cons. by left. }
  rewrite Hnil in Hin. by apply elem_of_nil in Hin.
Qed.

Lemma dict_nonempty (d : dict string) : d ≠ [] → dict_empty d = false.
Proof. by destruct d. Qed.

(** What [compare_items] returns on two names that get past both of its
    tests. *)
Lemma compare_items_table (w : world) (name1 name2 k1 k2 : string) (e1 e2 : entry) :
  resolve (agri_data w) name1 = Some k1 →
  resolve (agri_data w) name2 = Some k2 →
  k1 ≠ "" → k2 ≠ "" →
  dict_get (agri_data w) k1 = Some e1 →
  dict_get (agri_data w) k2 = Some e2 →
  as_dict e1 ≠ [] → as_dict e2 ≠ [] →
  compare_items name1 name2 w
  = (Returned (header k1 k2
               +:+ render_rows k1 k2
                     (rows_of (as_dict e1) (as_dict e2)
                              (union_keys (as_dict e1) (as_dict e2)))),
     w).
Proof.
  intros R1 R2 T1 T2 G1 G2 N1 N2.
  rewrite (compare_items_resolved w name1 name2 k1 k2 e1 e2 R1 R2 ltac:(by destruct k1)
             ltac:(by destruct k2) G1 G2).
  by rewrite (dict_nonempty _ N1), (dict_nonempty _ N2).
Qed.

(** X6.  Whatever the knowledge base holds: when two names resolve to
    (non-empty) keys whose entries are non-empty dicts, [compare_items]
    called on them in the other order returns the table of the same
    attribute rows, at least one, in the same order, with the two names
    and the two value columns exchanged. *)
Theorem comparison_rows_swap
    (w : world) (name1 name2 k1 k2 : string) (e1 e2 : entry) :
  resolve (agri_data w) name1 = Some k1 →
  resolve (agri_data w) name2 = Some k2 →
  k1 ≠ "" →
  k2 ≠ "" →
  dict_get (agri_data w) k1 = Some e1 →
  dict_get (agri_data w) k2 = Some e2 →
  as_dict e1 ≠ [] →
  as_dict e2 ≠ [] →
  ∃ rows : list (string * string * string),
    rows ≠ []
    ∧ compare_items name1 name2 w
      = (Returned (header k1 k2 +:+ render_rows k1 k2 rows), w)
    ∧ compare_items name2 name1 w
      = (Returned
           (header k2 k1
            +:+ render_rows k2 k1 ((λ '(key, v1, v2), (key, v2, v1)) <$> rows)),
         w).
Proof.
  intros R1 R2 T1 T2 G1 G2 N1 N2.
  exists (rows_of (as_dict e1) (as_dict e2) (union_keys (as_dict e1) (as_dict e2))).
  split_and!.
  - unfold rows_of. intros Hnil%fmap_nil_inv. by apply union_keys_nonempty in Hnil.
  - by apply compare_items_table.
  - rewrite (compare_items_table w name2 name1 k2 k1 e2 e1) by done.
    by rewrite (union_keys_comm (as_dict e2)), rows_of_swap.
Qed.

Lemma comparison_rows_swap_witness :
  ∃ rows : list (string * string * string),
    rows ≠ []
    ∧ compare_items "wheat" "MILLET" (World TWO_CROPS [] [])
      = (Returned (header "Wheat" "Millet" +:+ render_rows "Wheat" "Millet" rows),
         World TWO_CROPS [] [])
    ∧ compare_items "MILLET" "wheat" (World TWO_CROPS [] [])
      = (Returned
           (header "Millet" "Wheat"
            +:+ render_rows "Millet" "Wheat"
                  ((λ '(key, v1, v2), (key, v2, v1)) <$> rows)),
         World TWO_CROPS [] []).
Proof.
  apply (comparison_rows_swap (World TWO_CROPS [] [])
           "wheat" "MILLET" "Wheat" "Millet"
           (EDict [("soil", "Loamy"); ("season", "Rabi")])
           (EDict [("season", "Kharif"); ("water", "Low")])).
  - vm_compute. reflexivity.
  - vm_compute. reflexivity.
  - discriminate.
  - discriminate.
  - reflexivity.
  - reflexivity.
  - discriminate.
  - discriminate.
Defined.

(** The two tables of that knowledge base, row by row. *)
Example compare_two_crops_swapped :
  compare_items "MILLET" "wheat" (World TWO_CROPS [] [])
  = (Returned
       (header "Millet" "Wheat"
        +:+ row "Millet" "Wheat" "season" "Kharif" "Rabi"
        +:+ row "Millet" "Wheat" "soil" "N/A" "Loamy"
        +:+ row "Millet" "Wheat" "water" "Low" "N/A"),
     World TWO_CROPS [] []).
Proof. vm_compute. reflexivity. Qed.

(** X7.  Whatever the knowledge base holds: when two names resolve to
    (non-empty) keys whose entries are non-empty dicts, crops or not, the
    text [compare_items] returns is the title line followed by rows of
    which
    - there is one for every attribute either entry stores;
    - the cell of an entry is the value the entry stores under the key, or
      it is ["N/A"] because the entry has no such key, and then the other
      entry has it: no row is empty on both sides. *)
Theorem comparison_row_cells
    (w : world) (name1 name2 k1 k2 : string) (e1 e2 : entry) :
  resolve (agri_data w) name1 = Some k1 →
  resolve (agri_data w) name2 = Some k2 →
  k1 ≠ "" →
  k2 ≠ "" →
  dict_get (agri_data w) k1 = Some e1 →
  dict_get (agri_data w) k2 = Some e2 →
  as_dict e1 ≠ [] →
  as_dict e2 ≠ [] →
  ∃ rows : list (string * string * string),
    compare_items name1 name2 w
    = (Returned (header k1 k2 +:+ render_rows k1 k2 rows), w)
    ∧ (∀ key, is_Some (dict_get (as_dict e1) key) ∨ is_Some (dict_get (as_dict e2) key) →
              ∃ v1 v2, (key, v1, v2) ∈ rows)
    ∧ (∀ key v1 v2,
         (key, v1, v2) ∈ rows →
         (dict_get (as_dict e1) key = Some v1
          ∨ (dict_get (as_dict e1) key = None ∧ v1 = "N/A"
             ∧ is_Some (dict_get (as_dict e2) key)))
         ∧ (dict_get (as_dict e2) key = Some v2
            ∨ (dict_get (as_dict e2) key = None ∧ v2 = "N/A"
               ∧ is_Some (dict_get (as_dict e1) key)))).
Proof.
  intros R1 R2 T1 T2 G1 G2 N1 N2.
  set (d1 := as_dict e1) in *. set (d2 := as_dict e2) in *.
  exists (rows_of d1 d2 (union_keys d1 d2)).
  split_and!.
  - by apply compare_items_table.
  - intros key Hkey. rewrite <-!dict_keys_is_Some in Hkey.
    apply union_keys_elem_of in Hkey. unfold rows_of.
    eexists _, _. apply list_elem_of_fmap. by exists key.
  - unfold rows_of. intros key0 v1 v2 (key & [= -> -> ->] & Hin)%list_elem_of_fmap.
    apply union_keys_elem_of in Hin. rewrite !dict_keys_is_Some in Hin.
    destruct (dict_get d1 key) as [x1|] eqn:E1, (dict_get d2 key) as [x2|] eqn:E2;
      simpl.
    + split; by left.
    + split; [by left | right; by eauto].
    + split; [right; by eauto | by left].
    + destruct Hin as [[? [=]] | [? [=]]].
Qed.

Lemma comparison_row_cells_witness :
  ∃ rows : list (string * string * string),
    compare_items "Wheat" "Schemes" (World
        [("Wheat", EDict [("soil", "Loamy"); ("season", "Rabi")]);
         ("Schemes", EDict [("PM-KISAN", "Income support")])] [] [])
    = (Returned (header "Wheat" "Schemes" +:+ render_rows "Wheat" "Schemes" rows),
       World
        [("Wheat", EDict [("soil", "Loamy"); ("season", "Rabi")]);
         ("Schemes", EDict [("PM-KISAN", "Income support")])] [] [])
    ∧ (∀ key,
         is_Some (dict_get (as_dict (EDict [("soil", "Loamy"); ("season", "Rabi")])) key)
         ∨ is_Some (dict_get (as_dict (EDict [("PM-KISAN", "Income support")])) key) →
         ∃ v1 v2, (key, v1, v2) ∈ rows)
    ∧ (∀ key v1 v2,
         (key, v1, v2) ∈ rows →
         (dict_get (as_dict (EDict [("soil", "Loamy"); ("season", "Rabi")])) key = Some v1
          ∨ (dict_get (as_dict (EDict [("soil", "Loamy"); ("season", "Rabi")])) key = None
             ∧ v1 = "N/A"
             ∧ is_Some (dict_get (as_dict (EDict [("PM-KISAN", "Income support")])) key)))
         ∧ (dict_get (as_dict (EDict [("PM-KISAN", "Income support")])) key = Some v2
            ∨ (dict_get (as_dict (EDict [("PM-KISAN", "Income support")])) key = None
               ∧ v2 = "N/A"
               ∧ is_Some
                   (dict_get (as_dict (EDict [("soil", "Loamy"); ("season", "Rabi")])) key)))).
Proof.
  apply (comparison_row_cells
           (World [("Wheat", EDict [("soil", "Loamy"); ("season", "Rabi")]);
                   ("Schemes", EDict [("PM-KISAN", "Income support")])] [] [])
           "Wheat" "Schemes" "Wheat" "Schemes"
           (EDict [("soil", "Loamy"); ("season", "Rabi")])
           (EDict [("PM-KISAN", "Income support")])).
  - vm_compute. reflexivity.
  - vm_compute. reflexivity.
  - discriminate.
  - discriminate.
  - reflexivity.
  - reflexivity.
  - discriminate.
  - discriminate.
Defined.

(** ** The browse section *)

Lemma agri_keys_NoDup : NoDup (dict_keys AGRI_DATA).
Proof. apply (bool_decide_unpack _). vm_compute. reflexivity. Qed.

Lemma dict_get_elem_of {V} (d : dict V) (k : string) (v : V) :
  NoDup (dict_keys d) → (k, v) ∈ d ↔ dict_get d k = Some v.
Proof.
  induction d as [|[k' v'] d IH]; simpl; intros Hnd.
  - split; [by intros ?%elem_of_nil | done].
  - apply NoDup_cons in Hnd as [Hk' Hnd].
    rewrite elem_of_cons, (IH Hnd).
    destruct (decide (k' = k)) as [->|Hne].
    + split.
      * intros [[= ->] | H]; [done |]. by apply dict_get_Some_keys in H.
      * intros [= ->]. by left.
    + split; [intros [[= ? ?] | H]; done | by right].
Qed.

Lemma crop_like_items_elem_of (data : dict entry) (k : string) :
  NoDup (dict_keys data) →
  k ∈ crop_like_items data
  ↔ ∃ details, dict_get data k = Some (EDict details)
               ∧ (is_Some (dict_get details "season")
                  ∨ is_Some (dict_get details "soil")).
Proof.
  intros Hnd. unfold crop_like_items. rewrite list_elem_of_fmap. split.
  - intros ([k' e] & -> & [Hcrop Hin]%list_elem_of_filter). simpl in *.
    apply (dict_get_elem_of _ _ _ Hnd) in Hin.
    destruct e as [details|]; [|done]. exists details. split; [done |].
    simpl in Hcrop. apply orb_true_iff in Hcrop as [H|H];
      apply bool_decide_eq_true in H; auto.
  - intros (details & Hget & Hattr). exists (k, EDict details). split; [done |].
    apply list_elem_of_filter. split; [| by apply dict_get_elem_of].
    simpl. unfold dict_mem. apply orb_true_iff.
    destruct Hattr; [left | right]; by apply bool_decide_eq_true.
Qed.

(** X8.  For a dictionary (no key twice), the browse list holds exactly the
    keys whose entry is a dict with a [season] or a [soil] attribute. *)
Theorem crop_like_items_spec (data : dict entry) (k : string) :
  NoDup (dict_keys data) →
  k ∈ crop_like_items data
  ↔ ∃ details, dict_get data k = Some (EDict details)
               ∧ (is_Some (dict_get details "season")
                  ∨ is_Some (dict_get details "soil")).
Proof. apply crop_like_items_elem_of. Qed.

Lemma crop_like_items_spec_witness :
  "Rice" ∈ crop_like_items AGRI_DATA
  ↔ ∃ details, dict_get AGRI_DATA "Rice" = Some (EDict details)
               ∧ (is_Some (dict_get details "season")
                  ∨ is_Some (dict_get details "soil")).
Proof.
  apply (crop_like_items_spec AGRI_DATA "Rice").
  apply agri_keys_NoDup.
Defined.

(** X9.  Whatever option of the select box is chosen, the browse section
    does not fail: the placeholder shows nothing, and any other option is a
    key of the dictionary whose entry is a dict, shown as a subheader with
    the key, one line per attribute in stored order, and a divider. *)
Theorem browse_option_renders (data : dict entry) (selected : string) :
  NoDup (dict_keys data) →
  selected ∈ browse_options data →
  (selected = SELECT ∧ browse data selected = inr [])
  ∨ ∃ details,
      dict_get data selected = Some (EDict details)
      ∧ browse data selected
        = inr (Subheader selected
               :: ((λ '(key, val),
                      Plain (Markdown ("- *" +:+ Py.capitalize key +:+ ":* " +:+ val)))
                     <$> details)
               ++ [Divider]).
Proof.
  intros Hnd Hin. unfold browse.
  destruct (decide (selected = SELECT)) as [->|Hne]; [by left | right].
  unfold browse_options in Hin. apply elem_of_cons in Hin as [? | Hin]; [done |].
  unfold Py.sorted in Hin. rewrite merge_sort_Permutation in Hin.
  apply (crop_like_items_elem_of _ _ Hnd) in Hin as (details & Hget & _).
  exists details. by rewrite Hget.
Qed.

Lemma browse_option_renders_witness :
  ("Sugarcane" = SELECT ∧ browse AGRI_DATA "Sugarcane" = inr [])
  ∨ ∃ details,
      dict_get AGRI_DATA "Sugarcane" = Some (EDict details)
      ∧ browse AGRI_DATA "Sugarcane"
        = inr (Subheader "Sugarcane"
               :: ((λ '(key, val),
                      Plain (Markdown ("- *" +:+ Py.capitalize key +:+ ":* " +:+ val)))
                     <$> details)
               ++ [Divider]).
Proof.
  apply (browse_option_renders AGRI_DATA "Sugarcane").
  - apply agri_keys_NoDup.
  - apply (bool_decide_unpack _). vm_compute. reflexivity.
Defined.

(** ** The knowledge base as text for the chat model *)

Lemma format_details_acc (acc : string) (d : dict string) :
  foldl (λ formatted '(key, value),
           formatted +:+ ("- " +:+ Py.capitalize key +:+ ": " +:+ value +:+ Py.nl))
        acc d
  = acc +:+ foldl (λ formatted '(key, value),
                     formatted +:+ ("- " +:+ Py.capitalize key +:+ ": " +:+ value +:+ Py.nl))
                  "" d.
Proof.
  revert acc. induction d as [|[key value] d IH]; intros acc; simpl.
  - by rewrite append_empty_r.
  - rewrite IH. rewrite (IH ("" +:+ _)). by rewrite append_nil, append_assoc.
Qed.

Lemma format_entry_acc (acc item : string) (details : entry) :
  format_entry acc item details = acc +:+ format_entry "" item details.
Proof.
  unfold format_entry. destruct details as [d | info].
  - rewrite format_details_acc. rewrite (format_details_acc ("" +:+ _)).
    by rewrite append_nil, append_assoc.
  - by rewrite append_nil, append_assoc.
Qed.

Lemma format_agri_info_acc (acc : string) (data : dict entry) :
  foldl (λ formatted '(item, details), format_entry formatted item details) acc data
  = acc +:+ format_agri_info data.
Proof.
  unfold format_agri_info. revert acc.
  induction data as [|[item details] data IH]; intros acc; simpl.
  - by rewrite append_empty_r.
  - rewrite IH. rewrite (IH (format_entry "" _ _)).
    by rewrite (format_entry_acc acc), append_assoc.
Qed.

Lemma format_agri_info_concat (data1 data2 : dict entry) :
  format_agri_info (data1 ++ data2)
  = format_agri_info data1 +:+ format_agri_info data2.
Proof.
  unfold format_agri_info at 1. rewrite foldl_app.
  fold (format_agri_info data1). apply format_agri_info_acc.
Qed.

(** X10.  The text is made entry by entry, in the order of the dictionary:
    the text of two dictionaries laid end to end is the text of the first
    followed by the text of the second. *)
Theorem format_agri_info_app (data1 data2 : dict entry) :
  format_agri_info (data1 ++ data2)
  = format_agri_info data1 +:+ format_agri_info data2.
Proof. apply format_agri_info_concat. Qed.

Lemma format_agri_info_cons (item : string) (details : entry) (data : dict entry) :
  format_agri_info ((item, details) :: data)
  = format_entry "" item details +:+ format_agri_info data.
Proof. unfold format_agri_info at 1. simpl. apply format_agri_info_acc. Qed.

Lemma format_details_app (d1 d2 : dict string) :
  foldl (λ formatted '(key, value),
           formatted +:+ ("- " +:+ Py.capitalize key +:+ ": " +:+ value +:+ Py.nl))
        "" (d1 ++ d2)
  = foldl (λ formatted '(key, value),
             formatted +:+ ("- " +:+ Py.capitalize key +:+ ": " +:+ value +:+ Py.nl))
          "" d1
    +:+ foldl (λ formatted '(key, value),
                 formatted +:+ ("- " +:+ Py.capitalize key +:+ ": " +:+ value +:+ Py.nl))
              "" d2.
Proof. rewrite foldl_app. apply format_details_acc. Qed.

(** X11.  Nothing of the knowledge base is left out of the text: for every
    entry that is a dict and every attribute it stores, the text holds the
    heading of the entry and, further on, the line of the attribute with
    its value. *)
Theorem format_agri_info_lists_attribute
    (data : dict entry) (item : string) (details : dict string) (key value : string) :
  (item, EDict details) ∈ data →
  (key, value) ∈ details →
  ∃ before between after,
    format_agri_info data
    = before
      +:+ (Py.nl +:+ Py.nl +:+ "*" +:+ item +:+ "*" +:+ Py.nl)
      +:+ between
      +:+ ("- " +:+ Py.capitalize key +:+ ": " +:+ value +:+ Py.nl)
      +:+ after.
Proof.
  intros (pre & post & ->)%list_elem_of_split (dpre & dpost & ->)%list_elem_of_split.
  rewrite format_agri_info_concat, format_agri_info_cons.
  unfold format_entry. rewrite format_details_acc, append_nil.
  rewrite format_details_app.
  change (foldl ?f "" ((key, value) :: dpost))
    with (foldl f ("" +:+ ("- " +:+ Py.capitalize key +:+ ": " +:+ value +:+ Py.nl)) dpost).
  rewrite (format_details_acc ("" +:+ _) dpost), append_nil.
  set (lines_before := foldl _ "" dpre). set (lines_after := foldl _ "" dpost).
  exists (format_agri_info pre), lines_before,
         (lines_after +:+ format_agri_info post).
  by rewrite !append_assoc.
Qed.

Lemma format_agri_info_lists_attribute_witness :
  ∃ before between after,
    format_agri_info AGRI_DATA
    = before
      +:+ (Py.nl +:+ Py.nl +:+ "*" +:+ "Maize" +:+ "*" +:+ Py.nl)
      +:+ between
      +:+ ("- " +:+ Py.capitalize "soil" +:+ ": " +:+ "Well-drained loam or silty loam"
           +:+ Py.nl)
      +:+ after.
Proof.
  apply (format_agri_info_lists_attribute AGRI_DATA "Maize"
           (as_dict (agri_entry "Maize")) "soil" "Well-drained loam or silty loam").
  - apply list_elem_of_In. simpl. auto 10.
  - apply list_elem_of_In. simpl. auto 10.
Defined.

(** ** The session across runs of the script *)

Lemma for_each_markdown {A} (xs : list A) (line : A → string) (w : world) :
  for_each xs (λ x, st_markdown (line x)) w
  = (Returned (),
     World (agri_data w) (messages w) (screen w ++ ((λ x, Markdown (line x)) <$> xs))).
Proof.
  revert w. induction xs as [|x xs IH]; intros w; simpl.
  - destruct w. unfold mret, M_ret, ret. simpl. by rewrite app_nil_r.
  - run_monad. unfold st_markdown, show at 1. simpl. rewrite IH. simpl.
    by rewrite <-app_assoc.
Qed.

Lemma display_history_effect (w : world) :
  display_history w
  = (Returned (),
     World (agri_data w) (messages w)
       (screen w ++ ((λ msg, Markdown (history_line msg)) <$> drop 1 (messages w)))).
Proof. unfold display_history. apply for_each_markdown. Qed.

Lemma script_run_messages (llm : list message → result message)
    (stored : option (list message)) (page : list widget) (user_input : string) :
  messages (script_run llm stored page user_input).2
  = messages (on_submit llm user_input
                (World AGRI_DATA (init_session AGRI_DATA stored) page)).2.
Proof.
  unfold script_run. run_monad.
  destruct (on_submit llm user_input _) as [[[]|e] w']; [|done].
  by rewrite display_history_effect.
Qed.

(** X12.  The stored messages only grow from run to run: whatever the
    inputs and whatever the chat model does, the messages a session holds
    stay where they are, later runs adding after them.  A session that
    starts with none gets the system message built from the knowledge base
    as its first message and keeps it there. *)
Theorem session_history_grows (llm : list message → result message) :
  (∀ msgs inputs, ∃ added,
     session_after llm (Some msgs) inputs = Some (msgs ++ added))
  ∧ (∀ user_input inputs, ∃ later,
       session_after llm None (user_input :: inputs)
       = Some (SystemMessage (system_prompt AGRI_DATA) :: later)).
Proof.
  assert (Hgrow : ∀ inputs msgs, ∃ added,
            session_after llm (Some msgs) inputs = Some (msgs ++ added)).
  { induction inputs as [|user_input inputs IH]; intros msgs; simpl.
    - exists []. by rewrite app_nil_r.
    - rewrite script_run_messages. simpl init_session.
      destruct (on_submit_appends_only_aux llm user_input (World AGRI_DATA msgs []))
        as (added & -> & _). simpl messages.
      destruct (IH (msgs ++ added)) as [added' ->].
      exists (added ++ added'). by rewrite app_assoc. }
  split; [intros; apply Hgrow |].
  intros user_input inputs. simpl. rewrite script_run_messages. simpl init_session.
  destruct (on_submit_appends_only_aux llm user_input
              (World AGRI_DATA [SystemMessage (system_prompt AGRI_DATA)] []))
    as (added & -> & _). simpl messages.
  destruct (Hgrow inputs ([SystemMessage (system_prompt AGRI_DATA)] ++ added))
    as [added' ->].
  by eexists.
Qed.

(** X13.  A question of ASCII text (where the test for a compare command
    is the script's) answered by the chat model shows up on the page as two
    more lines under the conversation so far: the earlier messages but the
    first, then the input under [You], then the reply.  The first stored
    message is never shown. *)
Theorem question_run_shows_exchange (llm : list message → result message)
    (stored : option (list message)) (page : list widget)
    (first : message) (earlier : list message)
    (user_input : string) (reply : message) :
  init_session AGRI_DATA stored = first :: earlier →
  Py.is_ascii user_input = true →
  user_input ≠ "" →
  Py.startswith (Py.strip (Py.lower user_input)) "compare" = false →
  llm (first :: earlier ++ [HumanMessage user_input]) = Returned reply →
  script_run llm stored page user_input
  = (Returned (),
     World AGRI_DATA
       (first :: earlier ++ [HumanMessage user_input; reply])
       (page
        ++ ((λ msg, Markdown (history_line msg)) <$> earlier)
        ++ [Markdown ("🧑 You:** " +:+ user_input); Markdown (history_line reply)])).
Proof.
  intros Hinit _ Hne Hq Hllm. unfold script_run. rewrite Hinit. run_monad.
  assert (Hrun : on_submit llm user_input (World AGRI_DATA (first :: earlier) page)
                 = (Returned (),
                    World AGRI_DATA
                      ((first :: earlier) ++ [HumanMessage user_input; reply]) page)).
  { rewrite on_submit_question by done.
    unfold question_branch, call_llm, append_message. run_monad.
    rewrite Hllm. simpl. by rewrite <-app_assoc. }
  rewrite Hrun, display_history_effect. simpl.
  by rewrite drop_0, fmap_app.
Qed.

Lemma question_run_shows_exchange_witness :
  script_run (λ _, Returned (AIMessage "Rabi (October-March)")) None []
    "Best season to grow wheat?"
  = (Returned (),
     World AGRI_DATA
       (SystemMessage (system_prompt AGRI_DATA)
        :: [] ++ [HumanMessage "Best season to grow wheat?";
                  AIMessage "Rabi (October-March)"])
       ([]
        ++ ((λ msg, Markdown (history_line msg)) <$> [])
        ++ [Markdown ("🧑 You:** " +:+ "Best season to grow wheat?");
            Markdown (history_line (AIMessage "Rabi (October-March)"))])).
Proof.
  apply (question_run_shows_exchange
           (λ _, Returned (AIMessage "Rabi (October-March)")) None []
           (SystemMessage (system_prompt AGRI_DATA)) []
           "Best season to grow wheat?" (AIMessage "Rabi (October-March)")).
  - reflexivity.
  - reflexivity.
  - discriminate.
  - reflexivity.
  - reflexivity.
Defined.
